(** * ALEJO Unreal plugin: bridge protocol core and contrast engine

    A shallow embedding of the protocol and accessibility logic of the
    ALEJO plugin:

    - [ALEJOAccessibilitySettings.cpp]: the settings object and its JSON
      (de)serialisation;
    - [ALEJOSubsystem.cpp]: the WebSocket connection, the outbound requests
      and the inbound message dispatch;
    - [ALEJOUIHelper.cpp]: the accessible colour table and the WCAG
      contrast ratio.

    The engine's own services are not part of the plugin. The JSON reader
    and writer and the coercions of [FJsonValue] are the fields of a record
    [JsonEngine], single-precision arithmetic those of a record
    [FloatArith]; every definition is parametric in them, and the part of
    their contract a result relies on is a hypothesis of that result. The
    WebSocket transport is the environment of a step relation. *)

From Stdlib Require Import Reals Lra String Ascii List.
From stdpp Require Import gmap strings list.

#[local] Set Warnings "-register-all".
#[local] Open Scope string_scope.
#[local] Open Scope list_scope.

(** ** The engine's JSON document model ([Dom/JsonValue.h], [Dom/JsonObject.h]) *)

(** A JSON number is a [double]; a [float] or [double] is modelled by the
    real number it denotes. *)
Inductive FJsonValue : Type :=
  | JNull
  | JBoolean (b : bool)
  | JNumber (d : R)
  | JString (s : string)
  | JArray (l : list FJsonValue)
  | JObject (o : gmap string FJsonValue).

(** [FJsonObject::Values], a [TMap<FString, TSharedPtr<FJsonValue>>]. *)
Abbreviation FJsonObject := (gmap string FJsonValue).

(** [FString] comparison and [TMap<FString, _>] key lookup ignore case. *)
Definition ToLowerChar (c : ascii) : ascii :=
  let n := nat_of_ascii c in
  if (65 <=? n)%nat && (n <=? 90)%nat then ascii_of_nat (n + 32) else c.

Fixpoint ToLower (s : string) : string :=
  match s with
  | EmptyString => EmptyString
  | String c s' => String (ToLowerChar c) (ToLower s')
  end.

(** [FString::operator==] *)
Definition FString_Equals (a b : string) : bool :=
  String.eqb (ToLower a) (ToLower b).

(** [Values.Find(FieldName)] *)
Definition FindField (o : FJsonObject) (FieldName : string) : option FJsonValue :=
  o !! ToLower FieldName.

(** [FJsonObject::SetField] *)
Definition SetField (FieldName : string) (v : FJsonValue) (o : FJsonObject) : FJsonObject :=
  <[ToLower FieldName := v]> o.

Definition SetBoolField (FieldName : string) (b : bool) := SetField FieldName (JBoolean b).
Definition SetNumberField (FieldName : string) (d : R) := SetField FieldName (JNumber d).
Definition SetStringField (FieldName : string) (s : string) := SetField FieldName (JString s).
Definition SetObjectField (FieldName : string) (d : FJsonObject) := SetField FieldName (JObject d).

(** [FJsonObject::HasField] *)
Definition HasField (o : FJsonObject) (FieldName : string) : bool :=
  match FindField o FieldName with Some _ => true | None => false end.

(** What the engine supplies around the document model. *)
Record JsonEngine : Type := {
  (** [FJsonSerializer::Serialize] through a [TJsonWriter<>] *)
  Serialize : FJsonObject -> string;
  (** [FJsonSerializer::Deserialize] through a [TJsonReader<>]; [None]
      when the text is not a JSON object *)
  Deserialize : string -> option FJsonObject;
  (** [FJsonValue::TryGetString] on a value that is not a string *)
  CoerceString : FJsonValue -> option string;
  (** [FJsonValue::TryGetNumber] on a value that is not a number *)
  CoerceNumber : FJsonValue -> option R;
  (** [FJsonValue::TryGetBool] on a value that is not a boolean *)
  CoerceBool : FJsonValue -> option bool;
  (** what [FJsonObject::GetObjectField] returns for a field that is
      missing or not an object *)
  NoObject : option FJsonObject
}.

(** Single-precision arithmetic as the compiler and the C runtime supply
    it: a [float] is modelled by the real it denotes. *)
Record FloatArith : Type := {
  (** rounding of a real to the nearest [float]: the value of a decimal
      literal, the result of an operation, [static_cast<float>] *)
  RoundFloat : R -> R;
  (** [FMath::Pow] *)
  Pow : R -> R -> R
}.

Section Json.
Context (F : FloatArith) (E : JsonEngine).

Definition TryGetString (v : FJsonValue) : option string :=
  match v with JString s => Some s | _ => CoerceString E v end.

Definition TryGetNumber (v : FJsonValue) : option R :=
  match v with JNumber d => Some d | _ => CoerceNumber E v end.

Definition TryGetBool (v : FJsonValue) : option bool :=
  match v with JBoolean b => Some b | _ => CoerceBool E v end.

(** The [TryGet...Field] methods write their out-parameter only when they
    return true; [Some x] is "true, with x written". *)
Definition TryGetStringField (o : FJsonObject) (FieldName : string) : option string :=
  FindField o FieldName ≫= TryGetString.

Definition TryGetBoolField (o : FJsonObject) (FieldName : string) : option bool :=
  FindField o FieldName ≫= TryGetBool.

(** The overload with a [float&] out-parameter. *)
Definition TryGetNumberField (o : FJsonObject) (FieldName : string) : option R :=
  RoundFloat F <$> (FindField o FieldName ≫= TryGetNumber).

Definition GetObjectField (o : FJsonObject) (FieldName : string) : option FJsonObject :=
  match FindField o FieldName with
  | Some (JObject d) => Some d
  | _ => NoObject E
  end.
End Json.

(** ** [UALEJOAccessibilitySettings] *)

Record UALEJOAccessibilitySettings : Type := {
  bHighContrastMode : bool;
  FontScaleFactor : R;
  bColorBlindMode : bool;
  ColorBlindnessType : string;
  bScreenReaderEnabled : bool;
  bVisualAlternativesToAudio : bool;
  bSignLanguageEnabled : bool;
  SignLanguagePreference : string;
  bCaptionsEnabled : bool;
  CaptionScaleFactor : R;
  bHapticFeedbackEnabled : bool;
  InputHoldDuration : R;
  bSimplifiedGestureControls : bool;
  bSimplifiedLanguage : bool;
  bReducedMotion : bool;
  bFocusAssistance : bool;
  ReadingSpeedFactor : R
}.

(** The ranges of the [ClampMin]/[ClampMax] property metadata. *)
Definition InDeclaredRange (P : UALEJOAccessibilitySettings) : Prop :=
  (0.5 <= FontScaleFactor P <= 3.0)%R /\
  (0.5 <= CaptionScaleFactor P <= 3.0)%R /\
  (0.1 <= InputHoldDuration P <= 2.0)%R /\
  (0.5 <= ReadingSpeedFactor P <= 2.0)%R.

(** The document [ToJsonString] hands to the writer. A [float] member
    widens to the [double] of [SetNumberField] without change. *)
Definition ToJsonObject (P : UALEJOAccessibilitySettings) : FJsonObject :=
  SetNumberField "readingSpeedFactor" (ReadingSpeedFactor P)
  (SetBoolField "focusAssistance" (bFocusAssistance P)
  (SetBoolField "reducedMotion" (bReducedMotion P)
  (SetBoolField "simplifiedLanguage" (bSimplifiedLanguage P)
  (SetBoolField "simplifiedGestureControls" (bSimplifiedGestureControls P)
  (SetNumberField "inputHoldDuration" (InputHoldDuration P)
  (SetBoolField "hapticFeedbackEnabled" (bHapticFeedbackEnabled P)
  (SetNumberField "captionScaleFactor" (CaptionScaleFactor P)
  (SetBoolField "captionsEnabled" (bCaptionsEnabled P)
  (SetStringField "signLanguagePreference" (SignLanguagePreference P)
  (SetBoolField "signLanguageEnabled" (bSignLanguageEnabled P)
  (SetBoolField "visualAlternativesToAudio" (bVisualAlternativesToAudio P)
  (SetBoolField "screenReaderEnabled" (bScreenReaderEnabled P)
  (SetStringField "colorBlindnessType" (ColorBlindnessType P)
  (SetBoolField "colorBlindMode" (bColorBlindMode P)
  (SetNumberField "fontScaleFactor" (FontScaleFactor P)
  (SetBoolField "highContrastMode" (bHighContrastMode P) ∅)))))))))))))))).

Section Settings.
Context (F : FloatArith) (E : JsonEngine).

(** The constructor; [0.3f] is the [float] nearest to 0.3. *)
Definition DefaultSettings : UALEJOAccessibilitySettings := {|
    bHighContrastMode := false;
    FontScaleFactor := 1;
    bColorBlindMode := false;
    ColorBlindnessType := "None";
    bScreenReaderEnabled := false;
    bVisualAlternativesToAudio := false;
    bSignLanguageEnabled := false;
    SignLanguagePreference := "ASL";
    bCaptionsEnabled := true;
    CaptionScaleFactor := 1;
    bHapticFeedbackEnabled := true;
    InputHoldDuration := RoundFloat F (3 / 10);
    bSimplifiedGestureControls := false;
    bSimplifiedLanguage := false;
    bReducedMotion := false;
    bFocusAssistance := false;
    ReadingSpeedFactor := 1
  |}.

Definition ToJsonString (P : UALEJOAccessibilitySettings) : string :=
  Serialize E (ToJsonObject P).

(** The seventeen [TryGet...Field] calls of [FromJsonString]: each
    overwrites its member when it succeeds and leaves it alone otherwise. *)
Definition ApplyJsonObject (o : FJsonObject) (P : UALEJOAccessibilitySettings)
    : UALEJOAccessibilitySettings := {|
    bHighContrastMode := default (bHighContrastMode P) (TryGetBoolField E o "highContrastMode");
    FontScaleFactor := default (FontScaleFactor P) (TryGetNumberField F E o "fontScaleFactor");
    bColorBlindMode := default (bColorBlindMode P) (TryGetBoolField E o "colorBlindMode");
    ColorBlindnessType := default (ColorBlindnessType P) (TryGetStringField E o "colorBlindnessType");
    bScreenReaderEnabled := default (bScreenReaderEnabled P) (TryGetBoolField E o "screenReaderEnabled");
    bVisualAlternativesToAudio :=
      default (bVisualAlternativesToAudio P) (TryGetBoolField E o "visualAlternativesToAudio");
    bSignLanguageEnabled := default (bSignLanguageEnabled P) (TryGetBoolField E o "signLanguageEnabled");
    SignLanguagePreference :=
      default (SignLanguagePreference P) (TryGetStringField E o "signLanguagePreference");
    bCaptionsEnabled := default (bCaptionsEnabled P) (TryGetBoolField E o "captionsEnabled");
    CaptionScaleFactor := default (CaptionScaleFactor P) (TryGetNumberField F E o "captionScaleFactor");
    bHapticFeedbackEnabled :=
      default (bHapticFeedbackEnabled P) (TryGetBoolField E o "hapticFeedbackEnabled");
    InputHoldDuration := default (InputHoldDuration P) (TryGetNumberField F E o "inputHoldDuration");
    bSimplifiedGestureControls :=
      default (bSimplifiedGestureControls P) (TryGetBoolField E o "simplifiedGestureControls");
    bSimplifiedLanguage := default (bSimplifiedLanguage P) (TryGetBoolField E o "simplifiedLanguage");
    bReducedMotion := default (bReducedMotion P) (TryGetBoolField E o "reducedMotion");
    bFocusAssistance := default (bFocusAssistance P) (TryGetBoolField E o "focusAssistance");
    ReadingSpeedFactor := default (ReadingSpeedFactor P) (TryGetNumberField F E o "readingSpeedFactor")
  |}.

(** [FromJsonString]: the returned flag and the object after the call.
    [None] stands for both failures the function tests for, a reader that
    returns false and a document pointer that is not valid. *)
Definition FromJsonString (JsonString : string) (P : UALEJOAccessibilitySettings)
  : bool * UALEJOAccessibilitySettings :=
  match Deserialize E JsonString with
  | None => (false, P)
  | Some JsonObject => (true, ApplyJsonObject JsonObject P)
  end.
End Settings.

(** ** [UALEJOSubsystem] *)

(** What an observer of the subsystem can see: the delegate broadcasts and
    the calls made on the WebSocket module. A socket is named by the order
    in which the module created it. The lines of [LogDebug] are left out. *)
Inductive Effect : Type :=
  | OnTextProcessed (Response : string)
  | OnVoiceProcessed (Response : string)
  | OnALEJOEvent (EventType EventData : string)
  | OnResourceModeChanged (NewMode : string)
  | OnConnected
  | OnDisconnected
  | OnError (ErrorMessage : string)
  | CreateWebSocket (ServerURL : string) (Socket : nat)
  | SocketConnect (Socket : nat)
  | SocketSend (Socket : nat) (Data : string)
  | SocketClose (Socket : nat).

(** The life of an [IWebSocket] after [Connect()]. *)
Inductive ESocketState : Type :=
  | SocketConnecting
  | SocketOpen
  | SocketClosing
  | SocketClosed.

Record World : Type := {
  (** every socket the module has created, by name *)
  Sockets : list ESocketState;
  (** the member [TSharedPtr<IWebSocket> WebSocket]; [None] is null *)
  WebSocket : option nat;
  (** the effects so far, oldest first *)
  Trace : list Effect
}.

Definition InitialWorld : World :=
  {| Sockets := []; WebSocket := None; Trace := [] |}.

(** The state of the connection as the specification names it. The
    subsystem has no state member of its own: the state is that of the
    socket it holds. *)
Inductive EConnectionState : Type :=
  | Disconnected
  | Connecting
  | Connected
  | Closing.

Definition ConnectionState (w : World) : EConnectionState :=
  match WebSocket w with
  | None => Disconnected
  | Some h =>
      match Sockets w !! h with
      | Some SocketConnecting => Connecting
      | Some SocketOpen => Connected
      | Some SocketClosing => Closing
      | _ => Disconnected
      end
  end.

(** A socket that is connecting or open. *)
Definition IsLive (s : ESocketState) : bool :=
  match s with
  | SocketConnecting | SocketOpen => true
  | _ => false
  end.

Definition LiveSockets (w : World) : nat :=
  length (List.filter IsLive (Sockets w)).

(** [Delegate.Broadcast(...)] and the other effects. *)
Definition Emit (e : Effect) (w : World) : World :=
  {| Sockets := Sockets w; WebSocket := WebSocket w; Trace := Trace w ++ [e] |}.

(** [WebSocket.IsValid() && WebSocket->IsConnected()] *)
Definition IsConnected (w : World) : bool :=
  match WebSocket w with
  | Some h =>
      match Sockets w !! h with
      | Some SocketOpen => true
      | _ => false
      end
  | None => false
  end.

(** [WebSocket->Send(Data)]; callers have checked [IsConnected]. *)
Definition Send (Data : string) (w : World) : World :=
  match WebSocket w with
  | Some h => Emit (SocketSend h Data) w
  | None => w
  end.

(** [ConnectToWebSocket]: the new socket takes the place of the held one.
    The four callbacks it registers are [SocketOnConnected],
    [SocketOnConnectionError], [SocketOnClosed] and
    [HandleWebSocketMessage] below. *)
Definition ConnectToWebSocket (ServerURL : string) (w : World) : World :=
  let h := length (Sockets w) in
  {| Sockets := Sockets w ++ [SocketConnecting];
     WebSocket := Some h;
     Trace := Trace w ++ [CreateWebSocket ServerURL h; SocketConnect h] |}.

Definition Connect (ServerURL : string) (w : World) : World :=
  if IsConnected w then w else ConnectToWebSocket ServerURL w.

Definition Disconnect (w : World) : World :=
  match WebSocket w with
  | Some h =>
      if IsConnected w then
        {| Sockets := <[h := SocketClosing]> (Sockets w);
           WebSocket := None;
           Trace := Trace w ++ [SocketClose h] |}
      else w
  | None => w
  end.

(** The loop over a [TMap<FString, FString>] that fills [ContextObj]. *)
Definition ContextToJsonObject (Context : list (string * string)) : FJsonObject :=
  fold_left (fun o Pair => SetStringField (fst Pair) (snd Pair) o) Context ∅.

Section Subsystem.
Context (E : JsonEngine).

Definition ProcessText (Text : string) (Context : list (string * string)) (w : World) : World :=
  if negb (IsConnected w) then Emit (OnError "Not connected to ALEJO bridge") w
  else
    let MessageObj := SetStringField "text" Text ∅ in
    let MessageObj :=
      if (0 <? length Context)%nat
      then SetObjectField "context" (ContextToJsonObject Context) MessageObj
      else MessageObj in
    Send (Serialize E MessageObj) w.

Definition ProcessVoiceCommand (Command : string) (Context : list (string * string)) (w : World)
  : World :=
  if negb (IsConnected w) then Emit (OnError "Not connected to ALEJO bridge") w
  else
    let MessageObj := SetStringField "command" Command ∅ in
    let MessageObj :=
      if (0 <? length Context)%nat
      then SetObjectField "context" (ContextToJsonObject Context) MessageObj
      else MessageObj in
    Send (Serialize E MessageObj) w.

(** [Settings] is a pointer: [None] is null. *)
Definition UpdateAccessibilitySettings (Settings : option UALEJOAccessibilitySettings) (w : World)
  : World :=
  if negb (IsConnected w) || negb (bool_decide (is_Some Settings))
  then Emit (OnError "Not connected or invalid settings") w
  else
    match Settings with
    | Some Profile => Send (ToJsonString E Profile) w
    | None => w
    end.

Definition SendCustomEvent (EventType EventData : string) (w : World) : World :=
  if negb (IsConnected w) then Emit (OnError "Not connected to ALEJO bridge") w
  else
    let MessageObj := SetStringField "type" EventType ∅ in
    let MessageObj :=
      match Deserialize E EventData with
      | Some DataObj => SetObjectField "data" DataObj MessageObj
      | None => SetStringField "data" EventData MessageObj
      end in
    Send (Serialize E MessageObj) w.

(** [ParseJSON] *)
Definition ParseJSON (JSONString : string) : option FJsonObject :=
  Deserialize E JSONString.

Definition HandleWebSocketMessage (MessageString : string) (w : World) : World :=
  match ParseJSON MessageString with
  | None => Emit (OnError "Invalid JSON message received") w
  | Some JsonObject =>
      match TryGetStringField E JsonObject "type" with
      | Some EventType =>
          let DataObj := GetObjectField E JsonObject "data" in
          let EventData :=
            match DataObj with
            | Some d => Serialize E d
            | None => default "" (TryGetStringField E JsonObject "data")
            end in
          let w := Emit (OnALEJOEvent EventType EventData) w in
          if FString_Equals EventType "resource.mode.changed" then
            match DataObj with
            | Some d =>
                match TryGetStringField E d "mode" with
                | Some NewMode => Emit (OnResourceModeChanged NewMode) w
                | None => w
                end
            | None => w
            end
          else w
      | None =>
          if HasField JsonObject "response" then
            let Response := default "" (TryGetStringField E JsonObject "response") in
            Emit (OnTextProcessed Response) w
          else if HasField JsonObject "command" then
            let Response := default "" (TryGetStringField E JsonObject "response") in
            Emit (OnVoiceProcessed Response) w
          else if HasField JsonObject "error" then
            let ErrorMessage := default "" (TryGetStringField E JsonObject "error") in
            Emit (OnError ErrorMessage) w
          else w
      end
  end.

(** The other three callbacks. *)
Definition SocketOnConnected (w : World) : World := Emit OnConnected w.
Definition SocketOnConnectionError (Error : string) (w : World) : World := Emit (OnError Error) w.
Definition SocketOnClosed (w : World) : World := Emit OnDisconnected w.

(** The transport moves socket [h] to state [s]. *)
Definition SetSocket (h : nat) (s : ESocketState) (w : World) : World :=
  {| Sockets := <[h := s]> (Sockets w); WebSocket := WebSocket w; Trace := Trace w |}.

(** One step of a session: a call of the public interface, or the
    transport running one of the callbacks of a socket it was given. *)
Inductive Step : World -> World -> Prop :=
  | StepConnect ServerURL w : Step w (Connect ServerURL w)
  | StepDisconnect w : Step w (Disconnect w)
  | StepProcessText Text Context w : Step w (ProcessText Text Context w)
  | StepProcessVoiceCommand Command Context w : Step w (ProcessVoiceCommand Command Context w)
  | StepUpdateAccessibilitySettings Settings w : Step w (UpdateAccessibilitySettings Settings w)
  | StepSendCustomEvent EventType EventData w : Step w (SendCustomEvent EventType EventData w)
  | StepOpened h w :
      Sockets w !! h = Some SocketConnecting ->
      Step w (SocketOnConnected (SetSocket h SocketOpen w))
  | StepConnectionError h Error w :
      Sockets w !! h = Some SocketConnecting ->
      Step w (SocketOnConnectionError Error (SetSocket h SocketClosed w))
  | StepClosed h w :
      Sockets w !! h = Some SocketOpen \/ Sockets w !! h = Some SocketClosing ->
      Step w (SocketOnClosed (SetSocket h SocketClosed w))
  | StepMessage h MessageString w :
      Sockets w !! h = Some SocketOpen ->
      Step w (HandleWebSocketMessage MessageString w).

Inductive Reachable : World -> Prop :=
  | ReachableInitial : Reachable InitialWorld
  | ReachableStep w w' : Reachable w -> Step w w' -> Reachable w'.
End Subsystem.

(** ** [UALEJOUIHelper]: the contrast engine *)

(** [FLinearColor]; the members are [R], [G], [B] and [A] in the engine. *)
Record FLinearColor : Type := LinearColor {
  LinearR : R;
  LinearG : R;
  LinearB : R;
  LinearA : R
}.

#[local] Open Scope R_scope.

Section UIHelper.
Context (F : FloatArith).

(** A decimal literal with the [f] suffix. The literals [0.0f] and [1.0f]
    denote 0 and 1 exactly and are written so. *)
Definition flit (x : R) : R := RoundFloat F x.

(** The [float] operators [+], [*] and [/]: the exact result, rounded. *)
Definition fadd (x y : R) : R := RoundFloat F (x + y).
Definition fmul (x y : R) : R := RoundFloat F (x * y).
Definition fdiv (x y : R) : R := RoundFloat F (x / y).

(** [AccessibilitySettings] is the member pointer; [None] is null. *)
Definition GetAccessibleColorPair
  (AccessibilitySettings : option UALEJOAccessibilitySettings)
  (bIsButtonOrInteractive : bool) : FLinearColor * FLinearColor :=
  match AccessibilitySettings with
  | None =>
      (LinearColor (flit 0.1) (flit 0.1) (flit 0.1) 1, LinearColor (flit 0.9) (flit 0.9) (flit 0.9) 1)
  | Some Settings =>
      if bHighContrastMode Settings then
        if bIsButtonOrInteractive
        then (LinearColor 0 0 (flit 0.8) 1, LinearColor 1 1 1 1)
        else (LinearColor 0 0 0 1, LinearColor 1 1 0 1)
      else if bColorBlindMode Settings then
        if bIsButtonOrInteractive
        then (LinearColor 0 (flit 0.4) (flit 0.7) 1, LinearColor 1 1 1 1)
        else (LinearColor (flit 0.2) (flit 0.2) (flit 0.2) 1,
              LinearColor (flit 0.95) (flit 0.95) (flit 0.95) 1)
      else
        if bIsButtonOrInteractive
        then (LinearColor (flit 0.2) (flit 0.2) (flit 0.8) 1, LinearColor 1 1 1 1)
        else (LinearColor (flit 0.1) (flit 0.1) (flit 0.1) 1, LinearColor (flit 0.9) (flit 0.9) (flit 0.9) 1)
  end.

(** The conditional expression [CalculateLuminance] applies to each of
    the three channels. *)
Definition LinearChannel (c : R) : R :=
  if Rle_dec c (flit 0.03928)
  then fdiv c (flit 12.92)
  else Pow F (fdiv (fadd c (flit 0.055)) (flit 1.055)) (flit 2.4).

(** The lambda [CalculateLuminance]. *)
Definition CalculateLuminance (Color : FLinearColor) : R :=
  let R := LinearChannel (LinearR Color) in
  let G := LinearChannel (LinearG Color) in
  let B := LinearChannel (LinearB Color) in
  fadd (fadd (fmul (flit 0.2126) R) (fmul (flit 0.7152) G)) (fmul (flit 0.0722) B).

(** [FMath::Max] and [FMath::Min] are [Rmax] and [Rmin] on the reals. *)
Definition GetContrastRatio (Color1 Color2 : FLinearColor) : R :=
  let L1 := CalculateLuminance Color1 in
  let L2 := CalculateLuminance Color2 in
  let LighterL := Rmax L1 L2 in
  let DarkerL := Rmin L1 L2 in
  fdiv (fadd LighterL (flit 0.05)) (fadd DarkerL (flit 0.05)).
End UIHelper.

(** A colour proper: every colour channel lies in the unit interval. *)
Definition IsColor (c : FLinearColor) : Prop :=
  0 <= LinearR c <= 1 /\ 0 <= LinearG c <= 1 /\ 0 <= LinearB c <= 1.

Definition Black : FLinearColor := LinearColor 0 0 0 1.
Definition White : FLinearColor := LinearColor 1 1 1 1.

(** ** What the results assume of the engine *)

(** [FLT_EPSILON], twice the relative error of rounding to nearest. *)
Definition FLT_EPSILON : R := (/ 2 ^ 23)%R.

(** The relative error granted to [FMath::Pow]. *)
Definition PowTolerance : R := (/ 2 ^ 16)%R.

(** Single-precision arithmetic away from overflow and underflow: rounding
    is monotone, keeps 0 and 1, and is off by at most [FLT_EPSILON]
    relatively; [Pow] is close to the real power. *)
Record IsFloatArith (F : FloatArith) : Prop := {
  round_monotone : forall x y : R, (x <= y)%R -> (RoundFloat F x <= RoundFloat F y)%R;
  round_zero : RoundFloat F 0 = 0%R;
  round_one : RoundFloat F 1 = 1%R;
  round_error : forall x : R,
    (/ 1024 <= x <= 1024)%R -> (Rabs (RoundFloat F x - x) <= FLT_EPSILON * x)%R;
  pow_error : forall x y : R,
    (/ 1024 <= x <= 1024)%R -> (1 <= y <= 4)%R ->
    (Rabs (Pow F x y - Rpower x y) <= PowTolerance * Rpower x y)%R
}.

(** The numeric members hold [float] values. *)
Definition HoldsFloats (F : FloatArith) (P : UALEJOAccessibilitySettings) : Prop :=
  RoundFloat F (FontScaleFactor P) = FontScaleFactor P /\
  RoundFloat F (CaptionScaleFactor P) = CaptionScaleFactor P /\
  RoundFloat F (InputHoldDuration P) = InputHoldDuration P /\
  RoundFloat F (ReadingSpeedFactor P) = ReadingSpeedFactor P.

(** ** Instances used to exercise the results *)

(** Arithmetic without rounding error. *)
Definition ExactArith : FloatArith := {| RoundFloat := fun x => x; Pow := Rpower |}.

(** A reader that knows the frames of a table and rejects every other
    text, a writer that always produces [wire], and accessors that do not
    coerce. *)
Definition TableEngine (wire : string) (frames : gmap string FJsonObject) : JsonEngine := {|
  Serialize := fun _ => wire;
  Deserialize := fun s => frames !! s;
  CoerceString := fun _ => None;
  CoerceNumber := fun _ => None;
  CoerceBool := fun _ => None;
  NoObject := None
|}.

(** The text of a JSON string literal. *)
Definition Quoted (s : string) : string :=
  String (ascii_of_nat 34) (s +:+ String (ascii_of_nat 34) EmptyString).

(** Frames of the wire protocol and the documents they denote. *)
Definition ResourceModeFrame : string :=
  "{" +:+ Quoted "type" +:+ ":" +:+ Quoted "resource.mode.changed" +:+ ","
  +:+ Quoted "data" +:+ ":{" +:+ Quoted "mode" +:+ ":" +:+ Quoted "low" +:+ "}}".

Definition ResourceModeData : FJsonObject := SetStringField "mode" "low" ∅.

Definition ResourceModeObject : FJsonObject :=
  SetObjectField "data" ResourceModeData (SetStringField "type" "resource.mode.changed" ∅).

Definition ReplyWithCommandFrame : string :=
  "{" +:+ Quoted "response" +:+ ":" +:+ Quoted "hi" +:+ ","
  +:+ Quoted "command" +:+ ":" +:+ Quoted "go" +:+ "}".

Definition ReplyWithCommandObject : FJsonObject :=
  SetStringField "command" "go" (SetStringField "response" "hi" ∅).

Definition LargeFontFrame : string := "{" +:+ Quoted "fontScaleFactor" +:+ ":10}".

Definition LargeFontObject : FJsonObject := SetNumberField "fontScaleFactor" 10 ∅.

Definition DemoFrames : gmap string FJsonObject :=
  <[ResourceModeFrame := ResourceModeObject]>
  (<[ReplyWithCommandFrame := ReplyWithCommandObject]>
  (<[LargeFontFrame := LargeFontObject]>
  (<["{}" := ∅]> ∅))).

Definition DemoEngine : JsonEngine := TableEngine "{}" DemoFrames.

(** What [FromJsonString] leaves alone: a member whose key the document
    lacks keeps its value. *)
Definition KeepsUnmatched (o : FJsonObject) (P P' : UALEJOAccessibilitySettings) : Prop :=
  (HasField o "highContrastMode" = false -> bHighContrastMode P' = bHighContrastMode P) /\
  (HasField o "fontScaleFactor" = false -> FontScaleFactor P' = FontScaleFactor P) /\
  (HasField o "colorBlindMode" = false -> bColorBlindMode P' = bColorBlindMode P) /\
  (HasField o "colorBlindnessType" = false -> ColorBlindnessType P' = ColorBlindnessType P) /\
  (HasField o "screenReaderEnabled" = false -> bScreenReaderEnabled P' = bScreenReaderEnabled P) /\
  (HasField o "visualAlternativesToAudio" = false ->
   bVisualAlternativesToAudio P' = bVisualAlternativesToAudio P) /\
  (HasField o "signLanguageEnabled" = false -> bSignLanguageEnabled P' = bSignLanguageEnabled P) /\
  (HasField o "signLanguagePreference" = false ->
   SignLanguagePreference P' = SignLanguagePreference P) /\
  (HasField o "captionsEnabled" = false -> bCaptionsEnabled P' = bCaptionsEnabled P) /\
  (HasField o "captionScaleFactor" = false -> CaptionScaleFactor P' = CaptionScaleFactor P) /\
  (HasField o "hapticFeedbackEnabled" = false ->
   bHapticFeedbackEnabled P' = bHapticFeedbackEnabled P) /\
  (HasField o "inputHoldDuration" = false -> InputHoldDuration P' = InputHoldDuration P) /\
  (HasField o "simplifiedGestureControls" = false ->
   bSimplifiedGestureControls P' = bSimplifiedGestureControls P) /\
  (HasField o "simplifiedLanguage" = false -> bSimplifiedLanguage P' = bSimplifiedLanguage P) /\
  (HasField o "reducedMotion" = false -> bReducedMotion P' = bReducedMotion P) /\
  (HasField o "focusAssistance" = false -> bFocusAssistance P' = bFocusAssistance P) /\
  (HasField o "readingSpeedFactor" = false -> ReadingSpeedFactor P' = ReadingSpeedFactor P).

(** The keys of the settings document. *)
Definition SettingsKeys : list string :=
  ["highContrastMode"; "fontScaleFactor"; "colorBlindMode"; "colorBlindnessType";
   "screenReaderEnabled"; "visualAlternativesToAudio"; "signLanguageEnabled";
   "signLanguagePreference"; "captionsEnabled"; "captionScaleFactor";
   "hapticFeedbackEnabled"; "inputHoldDuration"; "simplifiedGestureControls";
   "simplifiedLanguage"; "reducedMotion"; "focusAssistance"; "readingSpeedFactor"].

(** The number a document carries under a key, as the [float] the
    settings object would store. *)
Definition PayloadNumber (F : FloatArith) (E : JsonEngine) (o : FJsonObject) (key : string)
  : option R :=
  RoundFloat F <$> (FindField o key ≫= TryGetNumber E).

(** Every number the document carries for a numeric member lies in the
    range declared for that member. *)
Definition PayloadInRange (F : FloatArith) (E : JsonEngine) (o : FJsonObject) : Prop :=
  (forall x, PayloadNumber F E o "fontScaleFactor" = Some x -> 0.5 <= x <= 3.0) /\
  (forall x, PayloadNumber F E o "captionScaleFactor" = Some x -> 0.5 <= x <= 3.0) /\
  (forall x, PayloadNumber F E o "inputHoldDuration" = Some x -> 0.1 <= x <= 2.0) /\
  (forall x, PayloadNumber F E o "readingSpeedFactor" = Some x -> 0.5 <= x <= 2.0).

(** A writer that spells out the fields of a document in the order of
    their keys: the key, and the value when it is a boolean or a string.
    A number, an array or an object is written as a mark of its kind. *)
Definition WriteValue (v : FJsonValue) : string :=
  match v with
  | JNull => "null"
  | JBoolean b => if b then "true" else "false"
  | JNumber _ => "#"
  | JString s => Quoted s
  | JArray _ => "[]"
  | JObject _ => "{}"
  end.

Definition WriteDocument (o : FJsonObject) : string :=
  "{" +:+ String.concat ","
            ((fun Field => Quoted (fst Field) +:+ ":" +:+ WriteValue (snd Field))
               <$> map_to_list o)
  +:+ "}".

(** An engine with that writer, whose reader knows the text of one
    document and rejects every other text. *)
Definition ReadBackEngine (o : FJsonObject) : JsonEngine := {|
  Serialize := WriteDocument;
  Deserialize := fun s => if String.eqb s (WriteDocument o) then Some o else None;
  CoerceString := fun _ => None;
  CoerceNumber := fun _ => None;
  CoerceBool := fun _ => None;
  NoObject := None
|}.

(** A settings object away from the defaults. *)
Definition LargePrintSettings : UALEJOAccessibilitySettings := {|
  bHighContrastMode := true;
  FontScaleFactor := 2;
  bColorBlindMode := true;
  ColorBlindnessType := "Deuteranopia";
  bScreenReaderEnabled := true;
  bVisualAlternativesToAudio := false;
  bSignLanguageEnabled := false;
  SignLanguagePreference := "BSL";
  bCaptionsEnabled := true;
  CaptionScaleFactor := 3;
  bHapticFeedbackEnabled := false;
  InputHoldDuration := 1;
  bSimplifiedGestureControls := true;
  bSimplifiedLanguage := false;
  bReducedMotion := true;
  bFocusAssistance := true;
  ReadingSpeedFactor := 1
|}.

(** ** More of [UALEJOSubsystem] *)

(** [Deinitialize] disconnects. *)
Definition Deinitialize (w : World) : World := Disconnect w.

(** A delegate broadcast, as opposed to a call on the WebSocket module. *)
Definition IsBroadcast (e : Effect) : bool :=
  match e with
  | CreateWebSocket _ _ | SocketConnect _ | SocketSend _ _ | SocketClose _ => false
  | _ => true
  end.

Definition IsSend (e : Effect) : bool :=
  match e with SocketSend _ _ => true | _ => false end.

Definition IsCreate (e : Effect) : bool :=
  match e with CreateWebSocket _ _ => true | _ => false end.

(** The keys of a [TMap<FString, FString>]: no two are equal as
    [FString]s. *)
Definition IsTMap (Map : list (string * string)) : Prop :=
  NoDup (List.map (fun Pair => ToLower (fst Pair)) Map).

(** ** More of [UALEJOUIHelper] *)

(** The comparison [x < y] of two [float]s. *)
Definition FloatLess (x y : R) : bool := if Rlt_dec x y then true else false.

Section UIHelperMore.
Context (F : FloatArith).

(** [Initialize]: the settings pointer after the call. *)
Definition UIHelper_Initialize (InSettings : option UALEJOAccessibilitySettings)
  : option UALEJOAccessibilitySettings :=
  match InSettings with
  | Some Settings => Some Settings
  | None => Some (DefaultSettings F)
  end.

(** [UALEJOUIHelper::UpdateAccessibilitySettings]: the settings pointer
    after the call. *)
Definition UIHelper_UpdateAccessibilitySettings
  (InSettings AccessibilitySettings : option UALEJOAccessibilitySettings)
  : option UALEJOAccessibilitySettings :=
  match InSettings with
  | Some Settings => Some Settings
  | None => AccessibilitySettings
  end.

Definition GetAccessibleText
  (AccessibilitySettings : option UALEJOAccessibilitySettings) (OriginalText : string) : string :=
  match AccessibilitySettings with
  | None => OriginalText
  | Some Settings =>
      if bSimplifiedLanguage Settings then "[Simplified] " +:+ OriginalText else OriginalText
  end.

Definition GetColorBlindFriendlyColor
  (AccessibilitySettings : option UALEJOAccessibilitySettings) (OriginalColor : FLinearColor)
  : FLinearColor :=
  match AccessibilitySettings with
  | None => OriginalColor
  | Some Settings =>
      if negb (bColorBlindMode Settings) then OriginalColor
      else if FString_Equals (ColorBlindnessType Settings) "Protanopia" then
        LinearColor
          (fadd F (fmul F (LinearB OriginalColor) (flit F 0.4))
                  (fmul F (LinearG OriginalColor) (flit F 0.6)))
          (LinearG OriginalColor) (LinearB OriginalColor) (LinearA OriginalColor)
      else if FString_Equals (ColorBlindnessType Settings) "Deuteranopia" then
        LinearColor
          (LinearR OriginalColor)
          (fadd F (fmul F (LinearR OriginalColor) (flit F 0.4))
                  (fmul F (LinearB OriginalColor) (flit F 0.6)))
          (LinearB OriginalColor) (LinearA OriginalColor)
      else if FString_Equals (ColorBlindnessType Settings) "Tritanopia" then
        LinearColor
          (LinearR OriginalColor) (LinearG OriginalColor)
          (fadd F (fmul F (LinearR OriginalColor) (flit F 0.3))
                  (fmul F (LinearG OriginalColor) (flit F 0.7)))
          (LinearA OriginalColor)
      else
        let safeColor := OriginalColor in
        if FloatLess 0.5 (LinearR safeColor) && FloatLess 0.5 (LinearG safeColor)
           && FloatLess (LinearB safeColor) 0.5
        then LinearColor (LinearR safeColor) (fmul F (LinearG safeColor) (flit F 0.8))
                         (LinearB safeColor) (LinearA safeColor)
        else if FloatLess (LinearR safeColor) 0.5 && FloatLess 0.5 (LinearG safeColor)
        then LinearColor (LinearR safeColor) (LinearG safeColor)
                         (fadd F (LinearB safeColor) (flit F 0.3)) (LinearA safeColor)
        else safeColor
  end.
End UIHelperMore.

(** *** The widget tree *)

(** [FMargin] *)
Record FMargin : Type := Margin {
  MarginLeft : R;
  MarginTop : R;
  MarginRight : R;
  MarginBottom : R
}.

(** [FSlateBrushOutlineSettings], as far as the helper writes it. *)
Record FOutlineSettings : Type := Outline {
  OutlineWidth : R;
  OutlineColor : FLinearColor
}.

(** What the helper reads and writes of a widget, by the class the widget
    casts to. *)
Inductive WidgetBody : Type :=
  | TextBlock (ColorAndOpacity : FLinearColor) (FontSize : Z)
  | RichTextBlock (MinDesiredWidth : R)
  | Button (BackgroundColor : FLinearColor) (Padding : FMargin)
           (Normal Hovered Pressed : FOutlineSettings)
  | Image (ColorAndOpacity : FLinearColor)
  | OtherWidget.

(** A [UWidget]. [Children] is [Some] when the widget casts to
    [UPanelWidget]; a child pointer may be null. *)
Inductive UWidget : Type :=
  | Widget (Body : WidgetBody) (Children : option (list (option UWidget))).

(** [UWidgetAnimation], as far as the helper touches it. *)
Record UWidgetAnimation : Type := Animation {
  PlayRate : R;
  CurrentTime : R
}.

(** [UUserWidget]: its [WidgetTree] pointer (with the root widget
    pointer) and the animations [GetAnimations] returns. *)
Record UUserWidget : Type := UserWidget {
  WidgetTree : option (option UWidget);
  Animations : list (option UWidgetAnimation)
}.

Section Widgets.
Context (F : FloatArith).
(** [FMath::RoundToInt] *)
Context (RoundToInt : R -> Z).

(** The body of [ApplyHighContrastRecursive] before the loop over the
    children. *)
Definition ApplyHighContrastBody (bHighContrast : bool) (Body : WidgetBody) : WidgetBody :=
  if bHighContrast then
    match Body with
    | TextBlock _ Size => TextBlock (LinearColor 1 1 0 1) Size
    | Button _ Padding Normal Hovered Pressed =>
        Button (LinearColor 0 0 (flit F 0.8) 1) Padding
               (Outline 2 (LinearColor 1 1 1 1))
               (Outline 3 (LinearColor 1 1 1 1))
               (Outline 3 (LinearColor 1 1 1 1))
    | Image _ => Image (LinearColor 1 1 1 1)
    | _ => Body
    end
  else
    match Body with
    | TextBlock _ Size => TextBlock (LinearColor (flit F 0.9) (flit F 0.9) (flit F 0.9) 1) Size
    | Button _ Padding Normal Hovered Pressed =>
        Button (LinearColor (flit F 0.2) (flit F 0.2) (flit F 0.2) 1) Padding
               (Outline 0 (OutlineColor Normal))
               (Outline 1 (OutlineColor Hovered))
               (Outline 1 (OutlineColor Pressed))
    | Image _ => Image (LinearColor 1 1 1 1)
    | _ => Body
    end.

(** [ApplyHighContrastRecursive] on a widget that is not null: the tree
    after the call. *)
Fixpoint ApplyHighContrastRecursive (bHighContrast : bool) (w : UWidget) : UWidget :=
  match w with
  | Widget Body Children =>
      Widget (ApplyHighContrastBody bHighContrast Body)
             (option_map (List.map (option_map (ApplyHighContrastRecursive bHighContrast)))
                         Children)
  end.

(** The body of [ApplyFontScalingRecursive] before the loop over the
    children. *)
Definition ApplyFontScalingBody (ScaleFactor : R) (Body : WidgetBody) : WidgetBody :=
  match Body with
  | TextBlock Color Size =>
      let OriginalSize := RoundFloat F (IZR Size) in
      TextBlock Color (RoundToInt (fmul F OriginalSize ScaleFactor))
  | RichTextBlock MinDesiredWidth => RichTextBlock (fmul F MinDesiredWidth ScaleFactor)
  | Button Color CurrentPadding Normal Hovered Pressed =>
      Button Color
             (Margin (fmul F (MarginLeft CurrentPadding) ScaleFactor)
                     (fmul F (MarginTop CurrentPadding) ScaleFactor)
                     (fmul F (MarginRight CurrentPadding) ScaleFactor)
                     (fmul F (MarginBottom CurrentPadding) ScaleFactor))
             Normal Hovered Pressed
  | _ => Body
  end.

Fixpoint ApplyFontScalingRecursive (ScaleFactor : R) (w : UWidget) : UWidget :=
  match w with
  | Widget Body Children =>
      Widget (ApplyFontScalingBody ScaleFactor Body)
             (option_map (List.map (option_map (ApplyFontScalingRecursive ScaleFactor)))
                         Children)
  end.

(** [TargetWidget] is a pointer; the result is the target after the call. *)
Definition ApplyHighContrastMode (TargetWidget : option UUserWidget) (bHighContrast : bool)
  : option UUserWidget :=
  match TargetWidget with
  | Some Target =>
      match WidgetTree Target with
      | Some RootWidget =>
          Some (UserWidget
                  (Some (option_map (ApplyHighContrastRecursive bHighContrast) RootWidget))
                  (Animations Target))
      | None => TargetWidget
      end
  | None => TargetWidget
  end.

Definition ApplyFontScaling
  (AccessibilitySettings : option UALEJOAccessibilitySettings)
  (TargetWidget : option UUserWidget) : option UUserWidget :=
  match TargetWidget, AccessibilitySettings with
  | Some Target, Some Settings =>
      match WidgetTree Target with
      | Some RootWidget =>
          Some (UserWidget
                  (Some (option_map (ApplyFontScalingRecursive (FontScaleFactor Settings))
                                    RootWidget))
                  (Animations Target))
      | None => TargetWidget
      end
  | _, _ => TargetWidget
  end.
End Widgets.

(** The loop body of [ApplyReducedMotionSettings] for one animation. *)
Definition ReduceMotion (Animation : option UWidgetAnimation) : option UWidgetAnimation :=
  match Animation with
  | Some a =>
      Some {| PlayRate := if FloatLess 0.5 (PlayRate a) then 0.5 else PlayRate a;
              CurrentTime := 0 |}
  | None => None
  end.

Definition ApplyReducedMotionSettings
  (AccessibilitySettings : option UALEJOAccessibilitySettings)
  (TargetWidget : option UUserWidget) : option UUserWidget :=
  match TargetWidget, AccessibilitySettings with
  | Some Target, Some Settings =>
      if bReducedMotion Settings
      then Some (UserWidget (WidgetTree Target) (List.map ReduceMotion (Animations Target)))
      else TargetWidget
  | _, _ => TargetWidget
  end.

(** *** Announcements *)

(** What the helper's [AnnounceToScreenReader] acts on: the announcements
    handed to the platform screen reader (the message, and whether on the
    override layer), and the subsystem of the game instance, [None] when
    there is no game instance or no subsystem. *)
Record UIWorld : Type := {
  Announcements : list (string * bool);
  Bridge : option World
}.

(** The event data [FString::Printf] builds around the message. *)
Definition AnnouncementData (Message : string) : string :=
  "{" +:+ Quoted "message" +:+ ":" +:+ Quoted Message +:+ "}".

Section Announce.
Context (E : JsonEngine).

Definition AnnounceToScreenReader
  (AccessibilitySettings : option UALEJOAccessibilitySettings)
  (Message : string) (bInterrupt : bool) (u : UIWorld) : UIWorld :=
  match AccessibilitySettings with
  | None => u
  | Some Settings =>
      if negb (bScreenReaderEnabled Settings) then u
      else
        {| Announcements := Announcements u ++ [(Message, bInterrupt)];
           Bridge :=
             option_map
               (SendCustomEvent E "ui.screenreader.announce" (AnnouncementData Message))
               (Bridge u) |}
  end.

(** ** [UALEJOBlueprintLibrary] *)




End Announce.

Definition IsConnectedToALEJO (Subsystem : option World) : bool :=
  match Subsystem with
  | Some w => IsConnected w
  | None => false
  end.



(** ** Auxiliary notions for the further results *)

(** The keys that tell the four kinds of outbound frame apart. *)
Definition FrameKeys (doc : FJsonObject) : bool * bool * bool * bool :=
  (HasField doc "text", HasField doc "command", HasField doc "type",
   HasField doc "highContrastMode").

(** What one step adds: [es] to the trace, a socket for each
    [CreateWebSocket] among them, at most one [SocketSend], and that one
    on the held socket of a connected subsystem. *)
Definition StepFacts (w w' : World) (es : list Effect) : Prop :=
  Trace w' = Trace w ++ es /\
  length (Sockets w') = (length (Sockets w) + length (List.filter IsCreate es))%nat /\
  (length (List.filter IsSend es) <= 1)%nat /\
  (forall h Data, SocketSend h Data ∈ es -> IsConnected w = true /\ WebSocket w = Some h).

(** The keys of the settings document by the type [FromJsonString] reads
    them at. *)
Definition BoolKeys : list string :=
  ["highContrastMode"; "colorBlindMode"; "screenReaderEnabled"; "visualAlternativesToAudio";
   "signLanguageEnabled"; "captionsEnabled"; "hapticFeedbackEnabled";
   "simplifiedGestureControls"; "simplifiedLanguage"; "reducedMotion"; "focusAssistance"].

Definition NumberKeys : list string :=
  ["fontScaleFactor"; "captionScaleFactor"; "inputHoldDuration"; "readingSpeedFactor"].

Definition StringKeys : list string := ["colorBlindnessType"; "signLanguagePreference"].

(** A document in which every one of the seventeen reads succeeds. *)
Definition IsFullDocument (F : FloatArith) (E : JsonEngine) (o : FJsonObject) : Prop :=
  (forall k, k ∈ BoolKeys -> is_Some (TryGetBoolField E o k)) /\
  (forall k, k ∈ NumberKeys -> is_Some (TryGetNumberField F E o k)) /\
  (forall k, k ∈ StringKeys -> is_Some (TryGetStringField E o k)).

(** More instances to exercise the results. *)
Definition ConnectedWorld : World :=
  {| Sockets := [SocketOpen]; WebSocket := Some 0%nat; Trace := [] |}.

Definition CommandOnlyFrame : string :=
  "{" +:+ Quoted "command" +:+ ":" +:+ Quoted "go" +:+ "}".

Definition CommandOnlyObject : FJsonObject := SetStringField "command" "go" ∅.

Definition HelloFrame : string :=
  "{" +:+ Quoted "response" +:+ ":" +:+ Quoted "Hello!" +:+ "}".

Definition HelloObject : FJsonObject := SetStringField "response" "Hello!" ∅.

Definition ListeningEvent : FJsonObject :=
  SetObjectField "data" ∅ (SetStringField "type" "voice.listening.start" ∅).

(** An engine whose writer always produces the text "frame", which its
    reader reads as [ListeningEvent]. *)
Definition SessionEngine : JsonEngine :=
  TableEngine "frame"
    (<[CommandOnlyFrame := CommandOnlyObject]>
    (<[HelloFrame := HelloObject]>
    (<["{}" := ∅]>
    (<["frame" := ListeningEvent]> ∅)))).

Definition ColorBlindSettings : UALEJOAccessibilitySettings := {|
  bHighContrastMode := false;
  FontScaleFactor := 1;
  bColorBlindMode := true;
  ColorBlindnessType := "None";
  bScreenReaderEnabled := true;
  bVisualAlternativesToAudio := false;
  bSignLanguageEnabled := false;
  SignLanguagePreference := "ASL";
  bCaptionsEnabled := true;
  CaptionScaleFactor := 1;
  bHapticFeedbackEnabled := true;
  InputHoldDuration := 1;
  bSimplifiedGestureControls := false;
  bSimplifiedLanguage := false;
  bReducedMotion := true;
  bFocusAssistance := false;
  ReadingSpeedFactor := 1
|}.

Definition SampleUserWidget : UUserWidget :=
  UserWidget
    (Some (Some (Widget (Button Black (Margin 1 1 1 1) (Outline 1 Black) (Outline 1 Black)
                                (Outline 1 Black)) None)))
    [Some (Animation 1 2); None; Some (Animation (/ 4) 0)].

#[local] Close Scope R_scope.

(** * Results *)

(** ** The document model *)

Lemma FindField_SetField_eq (k : string) (v : FJsonValue) (o : FJsonObject) :
  FindField (SetField k v o) k = Some v.
Proof. unfold FindField, SetField. apply lookup_insert_eq. Qed.

Lemma FindField_SetField_ne (k k' : string) (v : FJsonValue) (o : FJsonObject) :
  ToLower k ≠ ToLower k' -> FindField (SetField k v o) k' = FindField o k'.
Proof. intros Hne. unfold FindField, SetField. by apply lookup_insert_ne. Qed.

Lemma FindField_empty (k : string) : FindField ∅ k = None.
Proof. apply lookup_empty. Qed.

Lemma HasField_false (o : FJsonObject) (k : string) :
  HasField o k = false -> FindField o k = None.
Proof. unfold HasField. by destruct (FindField o k). Qed.

Lemma HasField_true (o : FJsonObject) (k : string) (v : FJsonValue) :
  FindField o k = Some v -> HasField o k = true.
Proof. unfold HasField. by intros ->. Qed.

(** Two field names the engine tells apart. *)
Ltac distinct_keys := vm_compute; discriminate.

(** Reads a field of a document built by a chain of [Set...Field]. *)
Ltac find_field :=
  unfold SetBoolField, SetNumberField, SetStringField, SetObjectField;
  rewrite ?FindField_SetField_ne by distinct_keys;
  first [rewrite FindField_SetField_eq | rewrite FindField_empty].

Section JsonResults.
Context (F : FloatArith) (E : JsonEngine).

Lemma TryGetBoolField_missing (o : FJsonObject) (k : string) :
  HasField o k = false -> TryGetBoolField E o k = None.
Proof. intros H. unfold TryGetBoolField. by rewrite (HasField_false _ _ H). Qed.

Lemma TryGetStringField_missing (o : FJsonObject) (k : string) :
  HasField o k = false -> TryGetStringField E o k = None.
Proof. intros H. unfold TryGetStringField. by rewrite (HasField_false _ _ H). Qed.

Lemma TryGetNumberField_missing (o : FJsonObject) (k : string) :
  HasField o k = false -> TryGetNumberField F E o k = None.
Proof. intros H. unfold TryGetNumberField. by rewrite (HasField_false _ _ H). Qed.

End JsonResults.

(** ** The settings object *)

(** Reduces the member selections of a settings record. *)
Ltac settings_members :=
  cbn [bHighContrastMode FontScaleFactor bColorBlindMode ColorBlindnessType
       bScreenReaderEnabled bVisualAlternativesToAudio bSignLanguageEnabled
       SignLanguagePreference bCaptionsEnabled CaptionScaleFactor
       bHapticFeedbackEnabled InputHoldDuration bSimplifiedGestureControls
       bSimplifiedLanguage bReducedMotion bFocusAssistance ReadingSpeedFactor] in *.

Section SettingsResults.
Context (F : FloatArith) (E : JsonEngine).

Lemma ApplyJsonObject_keeps_unmatched (o : FJsonObject) (P : UALEJOAccessibilitySettings) :
  KeepsUnmatched o P (ApplyJsonObject F E o P).
Proof.
  unfold KeepsUnmatched, ApplyJsonObject; settings_members.
  repeat split; intros H;
    rewrite ?(TryGetBoolField_missing E _ _ H), ?(TryGetStringField_missing E _ _ H),
      ?(TryGetNumberField_missing F E _ _ H); reflexivity.
Qed.

Lemma ApplyJsonObject_no_keys (o : FJsonObject) (P : UALEJOAccessibilitySettings) :
  (forall k, k ∈ SettingsKeys -> HasField o k = false) -> ApplyJsonObject F E o P = P.
Proof.
  intros Hkeys.
  assert (Hb : forall k, k ∈ SettingsKeys -> TryGetBoolField E o k = None)
    by (intros k Hk; apply TryGetBoolField_missing; auto).
  assert (Hs : forall k, k ∈ SettingsKeys -> TryGetStringField E o k = None)
    by (intros k Hk; apply TryGetStringField_missing; auto).
  assert (Hn : forall k, k ∈ SettingsKeys -> TryGetNumberField F E o k = None)
    by (intros k Hk; apply TryGetNumberField_missing; auto).
  unfold ApplyJsonObject.
  rewrite !Hb, !Hs, !Hn by (unfold SettingsKeys; set_solver).
  by destruct P.
Qed.

(** The numeric members after [ApplyJsonObject]: the number of the
    document, as a [float], or else the value before. *)
Lemma ApplyJsonObject_numbers (o : FJsonObject) (P : UALEJOAccessibilitySettings) :
  let P' := ApplyJsonObject F E o P in
  FontScaleFactor P' = default (FontScaleFactor P) (PayloadNumber F E o "fontScaleFactor") /\
  CaptionScaleFactor P' =
    default (CaptionScaleFactor P) (PayloadNumber F E o "captionScaleFactor") /\
  InputHoldDuration P' = default (InputHoldDuration P) (PayloadNumber F E o "inputHoldDuration") /\
  ReadingSpeedFactor P' =
    default (ReadingSpeedFactor P) (PayloadNumber F E o "readingSpeedFactor").
Proof. repeat split. Qed.

Lemma default_in_range (lo hi x : R) (m : option R) :
  (lo <= x <= hi)%R -> (forall y, m = Some y -> (lo <= y <= hi)%R) ->
  (lo <= default x m <= hi)%R.
Proof. intros Hx Hm. destruct m as [y|]; cbn; auto. Qed.

(** C3, as amended: [FromJsonString] does not clamp. After a successful
    call each numeric member holds the number the document carries under
    its key, converted to [float], or its value before the call when the
    document carries none; so the members lie in their declared ranges
    whenever the values before the call and the numbers of the document
    do. *)
Theorem FromJsonString_numeric_members
  (JsonString : string) (o : FJsonObject) (P : UALEJOAccessibilitySettings) :
  Deserialize E JsonString = Some o ->
  let P' := snd (FromJsonString F E JsonString P) in
  fst (FromJsonString F E JsonString P) = true /\
  FontScaleFactor P' = default (FontScaleFactor P) (PayloadNumber F E o "fontScaleFactor") /\
  CaptionScaleFactor P' =
    default (CaptionScaleFactor P) (PayloadNumber F E o "captionScaleFactor") /\
  InputHoldDuration P' = default (InputHoldDuration P) (PayloadNumber F E o "inputHoldDuration") /\
  ReadingSpeedFactor P' =
    default (ReadingSpeedFactor P) (PayloadNumber F E o "readingSpeedFactor") /\
  (InDeclaredRange P -> PayloadInRange F E o -> InDeclaredRange P').
Proof.
  intros Hparse. unfold FromJsonString. rewrite Hparse. cbn [fst snd].
  destruct (ApplyJsonObject_numbers o P) as (Hf & Hc & Hi & Hr).
  do 5 (split; [assumption || reflexivity |]).
  intros (Pf & Pc & Pi & Pr) (Of & Oc & Oi & Or).
  unfold InDeclaredRange. rewrite Hf, Hc, Hi, Hr.
  split; [|split; [|split]]; by apply default_in_range.
Qed.

(** Reading back the document [ToJsonObject] builds. *)
Lemma ApplyJsonObject_ToJsonObject (P Prior : UALEJOAccessibilitySettings) :
  HoldsFloats F P -> ApplyJsonObject F E (ToJsonObject P) Prior = P.
Proof.
  intros (Hf & Hc & Hi & Hr). destruct P.
  unfold ApplyJsonObject, ToJsonObject, TryGetBoolField, TryGetStringField, TryGetNumberField.
  settings_members.
  f_equal; find_field; cbn; congruence.
Qed.

(** C4: the round trip. For every settings object [P] (its numeric
    members being [float] values), [FromJsonString] applied to
    [ToJsonString] of [P] succeeds and yields [P] in every member,
    whatever the receiving object held before. What is assumed of the
    engine is stated of its writer and reader alone: the reader gives
    back the document of [P] from the text the writer makes of that
    document. (Of all documents at once no writer can be assumed to do
    so: a document holds arbitrary reals.) *)
Theorem FromJsonString_ToJsonString (P Prior : UALEJOAccessibilitySettings) :
  HoldsFloats F P ->
  (let doc := ToJsonObject P in Deserialize E (Serialize E doc) = Some doc) ->
  FromJsonString F E (ToJsonString E P) Prior = (true, P).
Proof.
  intros Hfloat Hread. cbn zeta in Hread.
  unfold FromJsonString, ToJsonString. rewrite Hread.
  by rewrite ApplyJsonObject_ToJsonObject.
Qed.

(** C5: on a text the reader rejects, [FromJsonString] returns false and
    leaves every member as it was; on a text that reads as a document
    it returns true and every member whose key the document lacks keeps
    its value, so that a document with none of the keys changes nothing. *)
Theorem FromJsonString_unparseable_or_missing
  (JsonString : string) (P : UALEJOAccessibilitySettings) :
  (Deserialize E JsonString = None -> FromJsonString F E JsonString P = (false, P)) /\
  (forall o, Deserialize E JsonString = Some o ->
     fst (FromJsonString F E JsonString P) = true /\
     KeepsUnmatched o P (snd (FromJsonString F E JsonString P)) /\
     ((forall k, k ∈ SettingsKeys -> HasField o k = false) ->
      snd (FromJsonString F E JsonString P) = P)).
Proof.
  unfold FromJsonString. split.
  - by intros ->.
  - intros o ->. cbn [fst snd]. split; [done|]. split.
    + apply ApplyJsonObject_keeps_unmatched.
    + apply ApplyJsonObject_no_keys.
Qed.
End SettingsResults.

Lemma DemoEngine_reads_large_font : Deserialize DemoEngine LargeFontFrame = Some LargeFontObject.
Proof. reflexivity. Qed.

Lemma LargeFont_applied (P : UALEJOAccessibilitySettings) :
  FontScaleFactor (ApplyJsonObject ExactArith DemoEngine LargeFontObject P) = 10%R.
Proof.
  unfold ApplyJsonObject, TryGetNumberField, LargeFontObject. settings_members.
  by find_field.
Qed.

Lemma FromJsonString_numeric_members_witness :
  Deserialize DemoEngine LargeFontFrame = Some LargeFontObject /\
  fst (FromJsonString ExactArith DemoEngine LargeFontFrame (DefaultSettings ExactArith)) = true.
Proof.
  split; [reflexivity|].
  destruct (FromJsonString_numeric_members ExactArith DemoEngine LargeFontFrame
              LargeFontObject (DefaultSettings ExactArith) eq_refl) as [Hok _].
  exact Hok.
Defined.

(** C3, as stated, fails: the frame [{"fontScaleFactor":10}] is read
    with success into the default settings object and leaves
    [FontScaleFactor] at 10, outside [0.5, 3.0]. *)
Lemma FromJsonString_does_not_clamp :
  let Result := FromJsonString ExactArith DemoEngine LargeFontFrame (DefaultSettings ExactArith) in
  fst Result = true /\
  FontScaleFactor (snd Result) = 10%R /\
  ~ InDeclaredRange (snd Result).
Proof.
  unfold FromJsonString. rewrite DemoEngine_reads_large_font. cbn [fst snd].
  split; [reflexivity|]. split; [apply LargeFont_applied|].
  intros [[_ Hhi] _]. rewrite LargeFont_applied in Hhi. lra.
Qed.

Lemma FromJsonString_ToJsonString_witness :
  let E := ReadBackEngine (ToJsonObject LargePrintSettings) in
  FromJsonString ExactArith E (ToJsonString E LargePrintSettings) (DefaultSettings ExactArith)
  = (true, LargePrintSettings) /\
  Deserialize E (Serialize E (SetBoolField "highContrastMode" true ∅)) = None.
Proof.
  split.
  - apply FromJsonString_ToJsonString.
    + repeat split.
    + vm_compute. reflexivity.
  - vm_compute. reflexivity.
Defined.

Lemma FromJsonString_unparseable_or_missing_witness :
  let P := DefaultSettings ExactArith in
  FromJsonString ExactArith DemoEngine "not json" P = (false, P) /\
  snd (FromJsonString ExactArith DemoEngine "{}" P) = P.
Proof.
  split.
  - apply FromJsonString_unparseable_or_missing. reflexivity.
  - apply (proj2 (FromJsonString_unparseable_or_missing ExactArith DemoEngine "{}" _) ∅).
    + reflexivity.
    + intros k _. reflexivity.
Defined.

(** ** The connection *)

Lemma IsConnected_Connected (w : World) :
  IsConnected w = true <-> ConnectionState w = Connected.
Proof.
  unfold IsConnected, ConnectionState.
  destruct (WebSocket w) as [h|]; [|done].
  destruct (Sockets w !! h) as [[]|]; done.
Qed.

Lemma IsConnected_false (w : World) :
  ConnectionState w ≠ Connected -> IsConnected w = false.
Proof.
  intros H. destruct (IsConnected w) eqn:Hc; [|done].
  by apply IsConnected_Connected in Hc.
Qed.

Lemma LiveSockets_ConnectToWebSocket (ServerURL : string) (w : World) :
  LiveSockets (ConnectToWebSocket ServerURL w) = S (LiveSockets w).
Proof.
  unfold LiveSockets, ConnectToWebSocket. cbn [Sockets].
  rewrite List.filter_app, length_app. cbn. lia.
Qed.

Section SubsystemResults.
Context (E : JsonEngine).

(** The requests and the message handler touch nothing but the trace. *)
Lemma Send_frame (Data : string) (w : World) :
  Sockets (Send Data w) = Sockets w /\ WebSocket (Send Data w) = WebSocket w.
Proof. unfold Send. destruct (WebSocket w) eqn:Hw; rewrite <- ?Hw; split; reflexivity. Qed.

Ltac only_emits :=
  repeat case_match; try apply Send_frame; split; reflexivity.

Lemma ProcessText_frame Text Context (w : World) :
  Sockets (ProcessText E Text Context w) = Sockets w /\
  WebSocket (ProcessText E Text Context w) = WebSocket w.
Proof. unfold ProcessText. only_emits. Qed.

Lemma ProcessVoiceCommand_frame Command Context (w : World) :
  Sockets (ProcessVoiceCommand E Command Context w) = Sockets w /\
  WebSocket (ProcessVoiceCommand E Command Context w) = WebSocket w.
Proof. unfold ProcessVoiceCommand. only_emits. Qed.

Lemma UpdateAccessibilitySettings_frame Settings (w : World) :
  Sockets (UpdateAccessibilitySettings E Settings w) = Sockets w /\
  WebSocket (UpdateAccessibilitySettings E Settings w) = WebSocket w.
Proof. unfold UpdateAccessibilitySettings. only_emits. Qed.

Lemma SendCustomEvent_frame EventType EventData (w : World) :
  Sockets (SendCustomEvent E EventType EventData w) = Sockets w /\
  WebSocket (SendCustomEvent E EventType EventData w) = WebSocket w.
Proof. unfold SendCustomEvent. only_emits. Qed.

Lemma HandleWebSocketMessage_frame MessageString (w : World) :
  Sockets (HandleWebSocketMessage E MessageString w) = Sockets w /\
  WebSocket (HandleWebSocketMessage E MessageString w) = WebSocket w.
Proof. unfold HandleWebSocketMessage. only_emits. Qed.

(** The socket the subsystem holds is one the module created. *)
Lemma Reachable_holds_created_socket (w : World) (h : nat) :
  Reachable E w -> WebSocket w = Some h -> h < length (Sockets w).
Proof.
  intros Hreach. revert h.
  induction Hreach as [|w w' _ IH Hstep]; [done|].
  destruct Hstep; intros k Hk.
  - unfold Connect in *. destruct (IsConnected w); [auto|].
    cbn in Hk |- *. injection Hk as <-. rewrite length_app. cbn. lia.
  - unfold Disconnect in *. destruct (WebSocket w) eqn:Hw; [|by rewrite Hw in Hk].
    destruct (IsConnected w); [done|]. apply IH. congruence.
  - destruct (ProcessText_frame Text Context w) as [-> Hw]. rewrite Hw in Hk. auto.
  - destruct (ProcessVoiceCommand_frame Command Context w) as [-> Hw]. rewrite Hw in Hk. auto.
  - destruct (UpdateAccessibilitySettings_frame Settings w) as [-> Hw]. rewrite Hw in Hk. auto.
  - destruct (SendCustomEvent_frame EventType EventData w) as [-> Hw]. rewrite Hw in Hk. auto.
  - cbn in *. rewrite length_insert. auto.
  - cbn in *. rewrite length_insert. auto.
  - cbn in *. rewrite length_insert. auto.
  - destruct (HandleWebSocketMessage_frame MessageString w) as [-> Hw]. rewrite Hw in Hk. auto.
Qed.

(** C6: [ProcessText] and [ProcessVoiceCommand], called while the
    connection is not [Connected], each add exactly one effect, the error
    notification "Not connected to ALEJO bridge": nothing is sent or
    queued, and the sockets and the connection state are as before. *)
Theorem Process_while_not_connected
  (Text Command : string) (Context : list (string * string)) (w : World) :
  ConnectionState w ≠ Connected ->
  (let w' := ProcessText E Text Context w in
   Trace w' = Trace w ++ [OnError "Not connected to ALEJO bridge"] /\
   Sockets w' = Sockets w /\ WebSocket w' = WebSocket w /\
   ConnectionState w' = ConnectionState w) /\
  (let w' := ProcessVoiceCommand E Command Context w in
   Trace w' = Trace w ++ [OnError "Not connected to ALEJO bridge"] /\
   Sockets w' = Sockets w /\ WebSocket w' = WebSocket w /\
   ConnectionState w' = ConnectionState w).
Proof.
  intros Hstate. apply IsConnected_false in Hstate.
  unfold ProcessText, ProcessVoiceCommand. rewrite Hstate. cbn [negb]. done.
Qed.

(** C10: [UpdateAccessibilitySettings] with a null settings pointer adds
    exactly one effect, an error notification, whatever the connection
    state: nothing is sent, also while [Connected]. *)
Theorem UpdateAccessibilitySettings_null (w : World) :
  let w' := UpdateAccessibilitySettings E None w in
  Trace w' = Trace w ++ [OnError "Not connected or invalid settings"] /\
  Sockets w' = Sockets w /\ WebSocket w' = WebSocket w.
Proof.
  unfold UpdateAccessibilitySettings.
  replace (bool_decide (is_Some (@None UALEJOAccessibilitySettings))) with false.
  - rewrite orb_true_r. done.
  - symmetry. apply bool_decide_eq_false. by intros [? ?].
Qed.

(** C2, as amended: [Connect] called while [Connected] is a no-op and
    opens no transport. Called while [Connecting] it is not: it creates
    and connects one more socket, which takes the place of the held one,
    so that one more socket is live than before. *)
Theorem Connect_is_noop_only_when_connected (ServerURL : string) (w : World) :
  (ConnectionState w = Connected -> Connect ServerURL w = w) /\
  (ConnectionState w = Connecting ->
   let h := length (Sockets w) in
   let w' := Connect ServerURL w in
   Trace w' = Trace w ++ [CreateWebSocket ServerURL h; SocketConnect h] /\
   Sockets w' = Sockets w ++ [SocketConnecting] /\
   WebSocket w' = Some h /\
   ConnectionState w' = Connecting /\
   LiveSockets w' = S (LiveSockets w)).
Proof.
  unfold Connect. split.
  - intros Hc. apply IsConnected_Connected in Hc. by rewrite Hc.
  - intros Hc. rewrite IsConnected_false by (by rewrite Hc).
    repeat split.
    + unfold ConnectionState, ConnectToWebSocket. cbn [WebSocket Sockets].
      by rewrite lookup_app_r, Nat.sub_diag by lia.
    + apply LiveSockets_ConnectToWebSocket.
Qed.

(** C1, as the code has it: a frame that reads as a document with a
    "response" string and a "command" key and no "type" key is
    classified as a text result: the one effect is the text-result
    notification carrying the response, and there is no voice-result
    notification. The test for "response" comes before the test for
    "command". *)
Theorem HandleWebSocketMessage_response_before_command
  (MessageString Response : string) (JsonObject : FJsonObject) (w : World) :
  ParseJSON E MessageString = Some JsonObject ->
  HasField JsonObject "type" = false ->
  FindField JsonObject "response" = Some (JString Response) ->
  HasField JsonObject "command" = true ->
  Trace (HandleWebSocketMessage E MessageString w) = Trace w ++ [OnTextProcessed Response].
Proof.
  intros Hparse Htype Hresp Hcmd. unfold HandleWebSocketMessage.
  rewrite Hparse, (TryGetStringField_missing E _ _ Htype), (HasField_true _ _ _ Hresp).
  unfold TryGetStringField. by rewrite Hresp.
Qed.

(** C9: the frame
    [{"type":"resource.mode.changed","data":{"mode":"low"}}] has two
    effects, in this order: the generic-event notification with type
    "resource.mode.changed", whose data is the data object as the writer
    serialises it, and the resource-mode notification with "low". *)
Theorem HandleWebSocketMessage_resource_mode (w : World) :
  ParseJSON E ResourceModeFrame = Some ResourceModeObject ->
  Trace (HandleWebSocketMessage E ResourceModeFrame w) =
  Trace w ++ [OnALEJOEvent "resource.mode.changed" (Serialize E ResourceModeData);
              OnResourceModeChanged "low"].
Proof.
  intros Hparse. unfold HandleWebSocketMessage. rewrite Hparse.
  assert (Htype : TryGetStringField E ResourceModeObject "type" = Some "resource.mode.changed").
  { unfold TryGetStringField, ResourceModeObject. by find_field. }
  assert (Hdata : GetObjectField E ResourceModeObject "data" = Some ResourceModeData).
  { unfold GetObjectField, ResourceModeObject. by find_field. }
  assert (Hmode : TryGetStringField E ResourceModeData "mode" = Some "low").
  { unfold TryGetStringField, ResourceModeData. by find_field. }
  rewrite Htype, Hdata, Hmode.
  replace (FString_Equals "resource.mode.changed" "resource.mode.changed") with true
    by reflexivity.
  cbn [Emit Trace]. by rewrite <- app_assoc.
Qed.
End SubsystemResults.

Lemma Process_while_not_connected_witness :
  ConnectionState InitialWorld ≠ Connected /\
  Trace (ProcessText DemoEngine "hello" [] InitialWorld)
  = [OnError "Not connected to ALEJO bridge"].
Proof.
  split; [discriminate|].
  apply (Process_while_not_connected DemoEngine "hello" "go" [] InitialWorld). discriminate.
Defined.

(** C2, as stated, fails: after a first [Connect] the connection is
    [Connecting]; a second [Connect] creates and connects a second
    socket, and two sockets are live. *)
Lemma Connect_while_connecting_opens_socket :
  let url := "ws://localhost:3030" in
  let w1 := Connect url InitialWorld in
  let w2 := Connect url w1 in
  Reachable DemoEngine w2 /\
  ConnectionState w1 = Connecting /\
  w2 ≠ w1 /\
  Trace w2 = [CreateWebSocket url 0; SocketConnect 0; CreateWebSocket url 1; SocketConnect 1] /\
  LiveSockets w2 = 2.
Proof.
  repeat split.
  - eapply ReachableStep; [eapply ReachableStep; [apply ReachableInitial|]|];
      apply StepConnect.
  - discriminate.
Qed.

(** A world whose one socket is open and held. *)
Lemma Connect_is_noop_only_when_connected_witness :
  let url := "ws://localhost:3030" in
  let Open := {| Sockets := [SocketOpen]; WebSocket := Some 0; Trace := [] |} in
  Connect url Open = Open /\
  LiveSockets (Connect url (Connect url InitialWorld)) = 2.
Proof.
  split.
  - by apply Connect_is_noop_only_when_connected.
  - by apply (Connect_is_noop_only_when_connected "ws://localhost:3030"
                (Connect "ws://localhost:3030" InitialWorld)).
Defined.

Lemma HandleWebSocketMessage_response_before_command_witness :
  Trace (HandleWebSocketMessage DemoEngine ReplyWithCommandFrame InitialWorld)
  = [OnTextProcessed "hi"].
Proof.
  apply (HandleWebSocketMessage_response_before_command DemoEngine ReplyWithCommandFrame "hi"
           ReplyWithCommandObject InitialWorld); reflexivity.
Defined.

Lemma HandleWebSocketMessage_resource_mode_witness :
  Trace (HandleWebSocketMessage DemoEngine ResourceModeFrame InitialWorld)
  = [OnALEJOEvent "resource.mode.changed" "{}"; OnResourceModeChanged "low"].
Proof.
  apply (HandleWebSocketMessage_resource_mode DemoEngine InitialWorld). reflexivity.
Defined.

(** ** Single-precision arithmetic *)

#[local] Open Scope R_scope.

Lemma FLT_EPSILON_small : 0 < FLT_EPSILON <= / 1000000.
Proof. unfold FLT_EPSILON. lra. Qed.

Lemma PowTolerance_small : 0 < PowTolerance <= / 10000.
Proof. unfold PowTolerance. lra. Qed.

Lemma Rabs_bound (a b : R) : Rabs a <= b -> - b <= a <= b.
Proof. unfold Rabs. destruct (Rcase_abs a); lra. Qed.

Lemma Rdiv_lower (a b k : R) : 0 < b -> k * b <= a -> k <= a / b.
Proof.
  intros Hb Hk. unfold Rdiv. apply Rmult_le_reg_r with b; [done|].
  rewrite Rmult_assoc, Rinv_l by lra. lra.
Qed.

Lemma ln_nonpos (x : R) : 0 < x <= 1 -> ln x <= 0.
Proof.
  intros [Hpos [Hlt| ->]]; [|rewrite ln_1; lra].
  left. rewrite <- ln_1. by apply ln_increasing.
Qed.

Lemma ln_nonneg (x : R) : 1 <= x -> 0 <= ln x.
Proof.
  intros [Hlt| <-]; [|rewrite ln_1; lra].
  left. rewrite <- ln_1. apply ln_increasing; lra.
Qed.

Lemma exp_monotone (a b : R) : a <= b -> exp a <= exp b.
Proof. intros [Hlt| ->]; [left; by apply exp_increasing | lra]. Qed.

(** Powers with a real exponent between 2 and 3. *)
Lemma Rpower_lower (lx x y : R) :
  0 < lx <= x -> lx <= 1 -> 2 <= y <= 3 -> lx ^ 3 <= Rpower x y.
Proof.
  intros [Hlx Hx] Hone Hy.
  apply Rle_trans with (Rpower lx y); [|apply Rle_Rpower_l; lra].
  rewrite <- (Rpower_pow 3 lx Hlx). unfold Rpower. apply exp_monotone.
  assert (Hln := ln_nonpos lx (conj Hlx Hone)).
  replace (INR 3) with 3 by (cbn; lra). nra.
Qed.

Lemma Rpower_upper_below_one (x hx y : R) :
  0 < x <= hx -> hx <= 1 -> 2 <= y <= 3 -> Rpower x y <= hx ^ 2.
Proof.
  intros [Hx Hhx] Hone Hy.
  apply Rle_trans with (Rpower hx y); [apply Rle_Rpower_l; lra|].
  assert (Hpos : 0 < hx) by lra.
  rewrite <- (Rpower_pow 2 hx Hpos). unfold Rpower. apply exp_monotone.
  assert (Hln := ln_nonpos hx (conj Hpos Hone)).
  replace (INR 2) with 2 by (cbn; lra). nra.
Qed.

Lemma Rpower_upper_above_one (x hx y : R) :
  0 < x <= hx -> 1 <= hx -> 2 <= y <= 3 -> Rpower x y <= hx ^ 3.
Proof.
  intros [Hx Hhx] Hone Hy.
  apply Rle_trans with (Rpower hx y); [apply Rle_Rpower_l; lra|].
  assert (Hpos : 0 < hx) by lra.
  rewrite <- (Rpower_pow 3 hx Hpos). unfold Rpower. apply exp_monotone.
  assert (Hln := ln_nonneg hx Hone).
  replace (INR 3) with 3 by (cbn; lra). nra.
Qed.

Lemma Rpower_positive (x y : R) : 0 < Rpower x y.
Proof. unfold Rpower. apply exp_pos. Qed.

Lemma ExactArith_IsFloatArith : IsFloatArith ExactArith.
Proof.
  split; cbn.
  - auto.
  - reflexivity.
  - reflexivity.
  - intros x [Hlo _]. rewrite Rminus_diag, Rabs_R0.
    assert (0 < / 1024) by lra. destruct FLT_EPSILON_small. nra.
  - intros x y _ _. rewrite Rminus_diag, Rabs_R0.
    assert (H := Rpower_positive x y). destruct PowTolerance_small. nra.
Qed.

Section FloatResults.
Context (F : FloatArith) (HF : IsFloatArith F).

Lemma round_nonneg (x : R) : 0 <= x -> 0 <= RoundFloat F x.
Proof. intros Hx. rewrite <- (round_zero F HF). by apply round_monotone. Qed.

Lemma round_exact_error (x : R) :
  / 1024 <= x <= 1024 ->
  x * (1 - / 1000000) <= RoundFloat F x <= x * (1 + / 1000000).
Proof.
  intros Hx. assert (He := round_error F HF x Hx).
  apply Rabs_bound in He. destruct FLT_EPSILON_small as [E0 E1].
  assert (0 < x) by lra. split; nra.
Qed.

Lemma round_in (x lo hi lo' hi' : R) :
  lo <= x <= hi -> / 1024 <= lo -> hi <= 1024 ->
  lo' <= lo * (1 - / 1000000) -> hi * (1 + / 1000000) <= hi' ->
  lo' <= RoundFloat F x <= hi'.
Proof.
  intros Hx Hlo Hhi Hlo' Hhi'.
  assert (He := round_exact_error x ltac:(lra)). nra.
Qed.

Lemma round_in0 (x hi hi' : R) :
  0 <= x <= hi -> / 1024 <= hi <= 1024 -> hi * (1 + / 1000000) <= hi' ->
  0 <= RoundFloat F x <= hi'.
Proof.
  intros [Hx Hxhi] Hhi Hhi'. split; [by apply round_nonneg|].
  apply Rle_trans with (RoundFloat F hi); [by apply round_monotone|].
  assert (He := round_exact_error hi Hhi). lra.
Qed.

(** Enclosure of a rounded value whose exact value is enclosed. *)
Lemma round_encl (x lo hi lo' hi' : R) :
  lo <= x <= hi -> 0 <= lo ->
  lo' <= 0 \/ (/ 1024 <= lo /\ lo' <= lo * (1 - / 1000000)) ->
  / 1024 <= hi <= 1024 -> hi * (1 + / 1000000) <= hi' ->
  lo' <= RoundFloat F x <= hi'.
Proof.
  intros [Hlo Hhi] Hpos Hlow Hrange Hup. split.
  - destruct Hlow as [Hneg|[Hbig Hlow]].
    + apply Rle_trans with 0; [done|]. apply round_nonneg. lra.
    + apply Rle_trans with (RoundFloat F lo); [|by apply round_monotone].
      assert (He := round_exact_error lo ltac:(lra)). lra.
  - apply Rle_trans with (RoundFloat F hi); [by apply round_monotone|].
    assert (He := round_exact_error hi Hrange). lra.
Qed.

Lemma flit_encl (q lo' hi' : R) :
  / 1024 <= q <= 1024 -> lo' <= q * (1 - / 1000000) -> q * (1 + / 1000000) <= hi' ->
  lo' <= flit F q <= hi'.
Proof. intros Hq Hlo Hhi. unfold flit. apply (round_encl q q q); lra. Qed.

Lemma fadd_encl (a b la ha lb hb lo' hi' : R) :
  la <= a <= ha -> lb <= b <= hb -> 0 <= la + lb ->
  lo' <= 0 \/ (/ 1024 <= la + lb /\ lo' <= (la + lb) * (1 - / 1000000)) ->
  / 1024 <= ha + hb <= 1024 -> (ha + hb) * (1 + / 1000000) <= hi' ->
  lo' <= fadd F a b <= hi'.
Proof.
  intros Ha Hb Hpos Hlow Hrange Hup. unfold fadd.
  apply (round_encl (a + b) (la + lb) (ha + hb)); try assumption. lra.
Qed.

Lemma fmul_encl (a b la ha lb hb lo' hi' : R) :
  la <= a <= ha -> lb <= b <= hb -> 0 <= la -> 0 <= lb ->
  lo' <= 0 \/ (/ 1024 <= la * lb /\ lo' <= la * lb * (1 - / 1000000)) ->
  / 1024 <= ha * hb <= 1024 -> ha * hb * (1 + / 1000000) <= hi' ->
  lo' <= fmul F a b <= hi'.
Proof.
  intros Ha Hb Hla Hlb Hlow Hrange Hup. unfold fmul.
  apply (round_encl (a * b) (la * lb) (ha * hb)); try assumption; nra.
Qed.

Lemma Rdiv_encl (a b la ha lb hb : R) :
  la <= a <= ha -> lb <= b <= hb -> 0 <= la -> 0 < lb ->
  la / hb <= a / b <= ha / lb.
Proof.
  intros Ha Hb Hla Hlb. unfold Rdiv.
  assert (H1 : / hb <= / b) by (apply Rinv_le_contravar; lra).
  assert (H2 : / b <= / lb) by (apply Rinv_le_contravar; lra).
  assert (H3 : 0 < / hb) by (apply Rinv_0_lt_compat; lra).
  split; nra.
Qed.

Lemma fdiv_encl (a b la ha lb hb lo' hi' : R) :
  la <= a <= ha -> lb <= b <= hb -> 0 <= la -> 0 < lb ->
  lo' <= 0 \/ (/ 1024 <= la / hb /\ lo' <= la / hb * (1 - / 1000000)) ->
  / 1024 <= ha / lb <= 1024 -> ha / lb * (1 + / 1000000) <= hi' ->
  lo' <= fdiv F a b <= hi'.
Proof.
  intros Ha Hb Hla Hlb Hlow Hrange Hup. unfold fdiv.
  assert (Hq := Rdiv_encl a b la ha lb hb Ha Hb Hla Hlb).
  assert (0 <= la / hb) by (apply Rle_mult_inv_pos; lra).
  apply (round_encl (a / b) (la / hb) (ha / lb)); assumption.
Qed.

Lemma Pow_encl (x y lx hx lo' hi' : R) :
  lx <= x <= hx -> 2 <= y <= 3 -> / 1024 <= lx <= 1 -> hx <= 1024 ->
  lo' <= lx ^ 3 * (1 - / 10000) ->
  (hx <= 1 /\ hx ^ 2 * (1 + / 10000) <= hi') \/ (1 <= hx /\ hx ^ 3 * (1 + / 10000) <= hi') ->
  lo' <= Pow F x y <= hi'.
Proof.
  intros Hx Hy Hlx Hhx Hlow Hup.
  assert (Hpos : 0 < lx) by lra.
  assert (He := pow_error F HF x y ltac:(lra) ltac:(lra)).
  apply Rabs_bound in He. destruct PowTolerance_small as [T0 T1].
  assert (Hp := Rpower_positive x y).
  assert (Hl := Rpower_lower lx x y ltac:(lra) ltac:(lra) Hy).
  assert (Hl3 : 0 < lx ^ 3) by (apply pow_lt; lra).
  split; [nra|].
  destruct Hup as [[Hone Hup]|[Hone Hup]].
  - assert (Hu := Rpower_upper_below_one x hx y ltac:(lra) Hone Hy). nra.
  - assert (Hu := Rpower_upper_above_one x hx y ltac:(lra) Hone Hy). nra.
Qed.

Ltac encl lem Ha Hb := eapply lem; [exact Ha | exact Hb | lra ..].

Lemma threshold_encl : 0.0392 <= flit F 0.03928 <= 0.0393.
Proof. apply flit_encl; lra. Qed.

Lemma exponent_encl : 2 <= flit F 2.4 <= 3.
Proof. apply flit_encl; lra. Qed.

Lemma zero_five_encl : 0.04999 <= flit F 0.05 <= 0.05001.
Proof. apply flit_encl; lra. Qed.

(** The argument of [Pow] in [LinearChannel]. *)
Lemma PowerBase_encl (c lc hc lx hx : R) :
  lc <= c <= hc -> 0 <= lc -> hc <= 1 ->
  lx <= (lc + 0.05499) / 1.05501 * (1 - / 100000) ->
  (hc + 0.05501) / 1.05499 * (1 + / 100000) <= hx ->
  lx <= fdiv F (fadd F c (flit F 0.055)) (flit F 1.055) <= hx.
Proof.
  intros Hc Hlc Hhc Hlx Hhx.
  assert (H55 : 0.05499 <= flit F 0.055 <= 0.05501) by (apply flit_encl; lra).
  assert (H1055 : 1.05499 <= flit F 1.055 <= 1.05501) by (apply flit_encl; lra).
  assert (Hsum : (lc + 0.05499) * (1 - / 1000000) <= fadd F c (flit F 0.055)
                 <= (hc + 0.05501) * (1 + / 1000000)).
  { encl fadd_encl Hc H55. }
  encl fdiv_encl Hsum H1055.
Qed.

Lemma LinearChannel_above (c : R) :
  0.04 <= c ->
  LinearChannel F c = Pow F (fdiv F (fadd F c (flit F 0.055)) (flit F 1.055)) (flit F 2.4).
Proof.
  intros Hc. unfold LinearChannel.
  destruct (Rle_dec c (flit F 0.03928)) as [Hle|]; [|done].
  destruct threshold_encl. lra.
Qed.

Lemma LinearChannel_zero : LinearChannel F 0 = 0.
Proof.
  unfold LinearChannel. destruct threshold_encl as [Ht _].
  destruct (Rle_dec 0 (flit F 0.03928)) as [_|Hgt]; [|lra].
  unfold fdiv, Rdiv. rewrite Rmult_0_l. apply (round_zero F HF).
Qed.

(** The values of the table: 1.0, 0.9, 0.8, 0.2 and 0.1. *)
Lemma LinearChannel_one : 0.9997 <= LinearChannel F 1 <= 1.0003.
Proof.
  rewrite LinearChannel_above by lra.
  assert (Hc : 1 <= 1 <= 1) by lra.
  assert (Hx := PowerBase_encl 1 1 1 0.99996 1.00004 Hc ltac:(lra) ltac:(lra)
                  ltac:(lra) ltac:(lra)).
  encl Pow_encl Hx exponent_encl.
Qed.

Lemma LinearChannel_nine_tenths : 0.7413 <= LinearChannel F (flit F 0.9) <= 0.82.
Proof.
  assert (Hc : 0.89999 <= flit F 0.9 <= 0.90001) by (apply flit_encl; lra).
  rewrite LinearChannel_above by lra.
  assert (Hx := PowerBase_encl _ _ _ 0.9051 0.9053 Hc ltac:(lra) ltac:(lra)
                  ltac:(lra) ltac:(lra)).
  encl Pow_encl Hx exponent_encl.
Qed.

Lemma LinearChannel_eight_tenths : 0 <= LinearChannel F (flit F 0.8) <= 0.657.
Proof.
  assert (Hc : 0.79999 <= flit F 0.8 <= 0.80001) by (apply flit_encl; lra).
  rewrite LinearChannel_above by lra.
  assert (Hx := PowerBase_encl _ _ _ 0.8103 0.8105 Hc ltac:(lra) ltac:(lra)
                  ltac:(lra) ltac:(lra)).
  encl Pow_encl Hx exponent_encl.
Qed.

Lemma LinearChannel_two_tenths : 0 <= LinearChannel F (flit F 0.2) <= 0.0585.
Proof.
  assert (Hc : 0.19999 <= flit F 0.2 <= 0.20001) by (apply flit_encl; lra).
  rewrite LinearChannel_above by lra.
  assert (Hx := PowerBase_encl _ _ _ 0.2416 0.2418 Hc ltac:(lra) ltac:(lra)
                  ltac:(lra) ltac:(lra)).
  encl Pow_encl Hx exponent_encl.
Qed.

Lemma LinearChannel_one_tenth : 0 <= LinearChannel F (flit F 0.1) <= 0.0217.
Proof.
  assert (Hc : 0.09999 <= flit F 0.1 <= 0.10001) by (apply flit_encl; lra).
  rewrite LinearChannel_above by lra.
  assert (Hx := PowerBase_encl _ _ _ 0.1468 0.1470 Hc ltac:(lra) ltac:(lra)
                  ltac:(lra) ltac:(lra)).
  encl Pow_encl Hx exponent_encl.
Qed.

(** Every channel of a colour has a luminance contribution that is not
    negative. *)
Lemma LinearChannel_nonneg (c : R) : 0 <= c <= 1 -> 0 <= LinearChannel F c.
Proof.
  intros Hc. unfold LinearChannel.
  destruct (Rle_dec c (flit F 0.03928)) as [Hle|Hgt].
  - assert (Hd : 12.91 <= flit F 12.92 <= 12.93) by (apply flit_encl; lra).
    unfold fdiv. apply round_nonneg. apply Rle_mult_inv_pos; lra.
  - assert (Hx := PowerBase_encl c 0 1 0.05 1.001 Hc ltac:(lra) ltac:(lra)
                    ltac:(lra) ltac:(lra)).
    assert (Hp : 0 <= Pow F (fdiv F (fadd F c (flit F 0.055)) (flit F 1.055)) (flit F 2.4) <= 2).
    { encl Pow_encl Hx exponent_encl. }
    apply Hp.
Qed.
(** The weighted sum of [CalculateLuminance]. *)
Lemma weights_encl :
  0.21259 <= flit F 0.2126 <= 0.21261 /\
  0.71519 <= flit F 0.7152 <= 0.71521 /\
  0.07219 <= flit F 0.0722 <= 0.07221.
Proof. split; [|split]; apply flit_encl; lra. Qed.


Lemma CalculateLuminance_upper (c : FLinearColor) (hr hg hb hi : R) :
  0 <= LinearChannel F (LinearR c) <= hr ->
  0 <= LinearChannel F (LinearG c) <= hg ->
  0 <= LinearChannel F (LinearB c) <= hb ->
  0.01 <= hr <= 1.01 -> 0.01 <= hg <= 1.01 -> 0.02 <= hb <= 1.01 ->
  (0.21261 * hr + 0.71521 * hg + 0.07221 * hb) * (1 + / 100000) <= hi ->
  0 <= CalculateLuminance F c <= hi.
Proof.
  intros Lr Lg Lb Hr Hg Hb Hhi. destruct weights_encl as (Wr & Wg & Wb).
  unfold CalculateLuminance.
  assert (Pr : 0 <= fmul F (flit F 0.2126) (LinearChannel F (LinearR c))
               <= 0.21261 * hr * (1 + / 1000000)).
  { encl fmul_encl Wr Lr. }
  assert (Pg : 0 <= fmul F (flit F 0.7152) (LinearChannel F (LinearG c))
               <= 0.71521 * hg * (1 + / 1000000)).
  { encl fmul_encl Wg Lg. }
  assert (Pb : 0 <= fmul F (flit F 0.0722) (LinearChannel F (LinearB c))
               <= 0.07221 * hb * (1 + / 1000000)).
  { encl fmul_encl Wb Lb. }
  assert (Srg : 0 <= fadd F (fmul F (flit F 0.2126) (LinearChannel F (LinearR c)))
                       (fmul F (flit F 0.7152) (LinearChannel F (LinearG c)))
                <= (0.21261 * hr + 0.71521 * hg) * (1 + / 1000000) * (1 + / 1000000)).
  { encl fadd_encl Pr Pg. }
  encl fadd_encl Srg Pb.
Qed.

Lemma CalculateLuminance_lower (c : FLinearColor) (lr lg lb lo : R) :
  lr <= LinearChannel F (LinearR c) <= 1.01 ->
  lg <= LinearChannel F (LinearG c) <= 1.01 ->
  lb <= LinearChannel F (LinearB c) <= 1.01 ->
  0.01 <= lr -> 0.01 <= lg -> lb = 0 \/ 0.02 <= lb ->
  lo <= (0.21259 * lr + 0.71519 * lg + 0.07219 * lb) * (1 - / 100000) ->
  lo <= CalculateLuminance F c <= 1.02.
Proof.
  intros Lr Lg Lb Hr Hg Hb Hlo. destruct weights_encl as (Wr & Wg & Wb).
  unfold CalculateLuminance.
  assert (Pr : 0.21259 * lr * (1 - / 1000000)
               <= fmul F (flit F 0.2126) (LinearChannel F (LinearR c)) <= 0.2148).
  { encl fmul_encl Wr Lr. }
  assert (Pg : 0.71519 * lg * (1 - / 1000000)
               <= fmul F (flit F 0.7152) (LinearChannel F (LinearG c)) <= 0.7224).
  { encl fmul_encl Wg Lg. }
  assert (Pb : 0.07219 * lb * (1 - / 1000000)
               <= fmul F (flit F 0.0722) (LinearChannel F (LinearB c)) <= 0.073).
  { encl fmul_encl Wb Lb. }
  assert (Srg : (0.21259 * lr + 0.71519 * lg) * (1 - / 1000000) * (1 - / 1000000)
                <= fadd F (fmul F (flit F 0.2126) (LinearChannel F (LinearR c)))
                       (fmul F (flit F 0.7152) (LinearChannel F (LinearG c)))
                <= 0.9373).
  { encl fadd_encl Pr Pg. }
  encl fadd_encl Srg Pb.
Qed.

(** The ratio of a darker first colour to a lighter second one. *)
Lemma GetContrastRatio_lower (Color1 Color2 : FLinearColor) (hd ll k : R) :
  0 <= CalculateLuminance F Color1 <= hd ->
  ll <= CalculateLuminance F Color2 <= 1.02 ->
  hd <= ll ->
  k * (hd + 0.05001) * (1 + / 100000) <= ll + 0.04999 ->
  0 <= k ->
  k <= GetContrastRatio F Color1 Color2.
Proof.
  intros Hd Hl Horder Hk Hk0. unfold GetContrastRatio.
  rewrite Rmax_right, Rmin_left by lra.
  assert (Hnum : (ll + 0.04999) * (1 - / 1000000)
                 <= fadd F (CalculateLuminance F Color2) (flit F 0.05) <= 1.08).
  { encl fadd_encl Hl zero_five_encl. }
  assert (Hden : 0.04998 <= fadd F (CalculateLuminance F Color1) (flit F 0.05)
                 <= (hd + 0.05001) * (1 + / 1000000)).
  { encl fadd_encl Hd zero_five_encl. }
  assert (Hq := Rdiv_encl _ _ _ _ _ _ Hnum Hden ltac:(lra) ltac:(lra)).
  remember (fadd F (CalculateLuminance F Color2) (flit F 0.05)
            / fadd F (CalculateLuminance F Color1) (flit F 0.05)) as q eqn:Eq.
  remember ((ll + 0.04999) * (1 - / 1000000) / ((hd + 0.05001) * (1 + / 1000000)))
    as Q eqn:EQ.
  assert (Hpos : 0 < (hd + 0.05001) * (1 + / 1000000)) by lra.
  assert (Hbig : / 1024 <= Q).
  { rewrite EQ. apply Rdiv_lower; [done|]. lra. }
  assert (HkQ : k / (1 - / 1000000) <= Q).
  { rewrite EQ. apply Rdiv_lower; [done|].
    remember (k * (hd + 0.05001)) as P eqn:EP.
    assert (0 <= P) by (rewrite EP; apply Rmult_le_pos; lra).
    replace (k / (1 - / 1000000) * ((hd + 0.05001) * (1 + / 1000000)))
      with (P * ((1 + / 1000000) / (1 - / 1000000))) by (rewrite EP; field; lra).
    replace (k * (hd + 0.05001) * (1 + / 100000)) with (P * (1 + / 100000)) in Hk
      by (rewrite EP; ring).
    lra. }
  assert (HkQ' : k <= Q * (1 - / 1000000)).
  { apply Rmult_le_reg_r with (/ (1 - / 1000000)); [lra|].
    replace (Q * (1 - / 1000000) * / (1 - / 1000000)) with Q by (field; lra).
    exact HkQ. }
  unfold fdiv. rewrite <- Eq.
  apply (round_encl q Q (1.08 / 0.04998) k 22); try lra.
Qed.
(** The luminance of the colours of the table. *)
Lemma CalculateLuminance_black : CalculateLuminance F Black = 0.
Proof.
  unfold CalculateLuminance, Black, fadd, fmul. cbn [LinearR LinearG LinearB].
  rewrite LinearChannel_zero, !Rmult_0_r, !(round_zero F HF), !Rplus_0_r.
  by rewrite !(round_zero F HF).
Qed.

Lemma CalculateLuminance_white (a : R) :
  0.9996 <= CalculateLuminance F (LinearColor 1 1 1 a) <= 1.0004.
Proof.
  assert (H1 := LinearChannel_one).
  split.
  - apply (CalculateLuminance_lower _ 0.9997 0.9997 0.9997); cbn; lra.
  - apply (CalculateLuminance_upper _ 1.0003 1.0003 1.0003); cbn; lra.
Qed.

Lemma CalculateLuminance_yellow (a : R) :
  0.9274 <= CalculateLuminance F (LinearColor 1 1 0 a) <= 1.02.
Proof.
  assert (H1 := LinearChannel_one).
  apply (CalculateLuminance_lower _ 0.9997 0.9997 0); cbn;
    rewrite ?LinearChannel_zero; lra.
Qed.

Lemma CalculateLuminance_light_gray (a : R) :
  0.7412 <= CalculateLuminance F (LinearColor (flit F 0.9) (flit F 0.9) (flit F 0.9) a) <= 1.02.
Proof.
  assert (H9 := LinearChannel_nine_tenths).
  apply (CalculateLuminance_lower _ 0.7413 0.7413 0.7413); cbn; lra.
Qed.

Lemma CalculateLuminance_dark_blue (a : R) :
  0 <= CalculateLuminance F (LinearColor 0 0 (flit F 0.8) a) <= 0.0568.
Proof.
  assert (H8 := LinearChannel_eight_tenths).
  apply (CalculateLuminance_upper _ 0.01 0.01 0.657); cbn;
    rewrite ?LinearChannel_zero; lra.
Qed.

Lemma CalculateLuminance_blue (a : R) :
  0 <= CalculateLuminance F (LinearColor (flit F 0.2) (flit F 0.2) (flit F 0.8) a) <= 0.1018.
Proof.
  assert (H8 := LinearChannel_eight_tenths). assert (H2 := LinearChannel_two_tenths).
  apply (CalculateLuminance_upper _ 0.0585 0.0585 0.657); cbn; lra.
Qed.

Lemma CalculateLuminance_dark_gray (a : R) :
  0 <= CalculateLuminance F (LinearColor (flit F 0.1) (flit F 0.1) (flit F 0.1) a) <= 0.0218.
Proof.
  assert (H1 := LinearChannel_one_tenth).
  apply (CalculateLuminance_upper _ 0.0217 0.0217 0.0217); cbn; lra.
Qed.

(** C7: with [bHighContrastMode] set, whatever [bColorBlindMode] and the
    interactive flag are, the pair [GetAccessibleColorPair] returns has a
    contrast ratio, as [GetContrastRatio] computes it, of at least 7;
    with [bHighContrastMode] and [bColorBlindMode] both clear the ratio is
    at least 4.5; and with [bHighContrastMode] set the pair is the
    high-contrast one, also when [bColorBlindMode] is set. *)
Theorem GetAccessibleColorPair_contrast
  (Settings : UALEJOAccessibilitySettings) (bIsButtonOrInteractive : bool) :
  let Pair := GetAccessibleColorPair F (Some Settings) bIsButtonOrInteractive in
  (bHighContrastMode Settings = true -> 7 <= GetContrastRatio F (fst Pair) (snd Pair)) /\
  (bHighContrastMode Settings = false -> bColorBlindMode Settings = false ->
   4.5 <= GetContrastRatio F (fst Pair) (snd Pair)) /\
  (bHighContrastMode Settings = true ->
   Pair = if bIsButtonOrInteractive
          then (LinearColor 0 0 (flit F 0.8) 1, LinearColor 1 1 1 1)
          else (LinearColor 0 0 0 1, LinearColor 1 1 0 1)).
Proof.
  unfold GetAccessibleColorPair. split; [|split].
  - intros ->. destruct bIsButtonOrInteractive; cbn [fst snd].
    + apply (GetContrastRatio_lower _ _ 0.0568 0.9996);
        [apply CalculateLuminance_dark_blue | | lra ..].
      destruct (CalculateLuminance_white 1). lra.
    + apply (GetContrastRatio_lower _ _ 0 0.9274);
        [ | apply CalculateLuminance_yellow | lra ..].
      fold Black. rewrite CalculateLuminance_black. lra.
  - intros -> ->. destruct bIsButtonOrInteractive; cbn [fst snd].
    + apply (GetContrastRatio_lower _ _ 0.1018 0.9996);
        [apply CalculateLuminance_blue | | lra ..].
      destruct (CalculateLuminance_white 1). lra.
    + apply (GetContrastRatio_lower _ _ 0.0218 0.7412);
        [apply CalculateLuminance_dark_gray | apply CalculateLuminance_light_gray | lra ..].
  - by intros ->.
Qed.




End FloatResults.

Lemma GetAccessibleColorPair_contrast_witness :
  7 <= GetContrastRatio ExactArith
         (LinearColor 0 0 (flit ExactArith 0.8) 1) (LinearColor 1 1 1 1).
Proof.
  by apply (GetAccessibleColorPair_contrast ExactArith ExactArith_IsFloatArith
              LargePrintSettings true).
Defined.



#[local] Close Scope R_scope.

(** * Further results *)

(** ** The message handler *)

Lemma IsConnected_holds (w : World) :
  IsConnected w = true ->
  exists h, WebSocket w = Some h /\ Sockets w !! h = Some SocketOpen.
Proof.
  unfold IsConnected. destruct (WebSocket w) as [h|]; [|done].
  destruct (Sockets w !! h) as [[]|] eqn:Hs; try done. eauto.
Qed.

Lemma Send_connected (Data : string) (w : World) (h : nat) :
  WebSocket w = Some h -> Send Data w = Emit (SocketSend h Data) w.
Proof. unfold Send. by intros ->. Qed.

Section HandlerResults.
Context (E : JsonEngine).

(** What [HandleWebSocketMessage] does to the world, for every frame. *)
Lemma HandleWebSocketMessage_emits (MessageString : string) (w : World) :
  exists es : list Effect,
    HandleWebSocketMessage E MessageString w
    = {| Sockets := Sockets w; WebSocket := WebSocket w; Trace := Trace w ++ es |} /\
    length es <= 2 /\
    Forall (fun e => IsBroadcast e = true) es /\
    (ParseJSON E MessageString = None -> es = [OnError "Invalid JSON message received"]).
Proof.
  unfold HandleWebSocketMessage.
  repeat case_match;
    first
      [ eexists; split;
        [unfold Emit; cbn [Sockets WebSocket Trace]; rewrite <- ?app_assoc; reflexivity|];
        split; [cbn; lia|]; split; [repeat constructor | done]
      | exists []; split; [destruct w; cbn; by rewrite app_nil_r|];
        split; [cbn; lia|]; split; [constructor | discriminate] ].
Qed.

(** X1: whatever the frame, [HandleWebSocketMessage] only broadcasts. It
    adds at most two effects to the trace, each of them a delegate
    broadcast and none a call on the socket, and leaves the sockets and
    the held socket as they were; a frame the reader rejects gives the
    one error "Invalid JSON message received". *)
Theorem HandleWebSocketMessage_only_broadcasts (MessageString : string) (w : World) :
  exists es : list Effect,
    HandleWebSocketMessage E MessageString w
    = {| Sockets := Sockets w; WebSocket := WebSocket w; Trace := Trace w ++ es |} /\
    length es <= 2 /\
    Forall (fun e => IsBroadcast e = true) es /\
    (ParseJSON E MessageString = None -> es = [OnError "Invalid JSON message received"]).
Proof. apply HandleWebSocketMessage_emits. Qed.

(** X2: a voice-result notification that [HandleWebSocketMessage]
    broadcasts always carries the empty string: the voice branch is taken
    only when the frame has no "response" key, the key it reads. *)
Theorem HandleWebSocketMessage_voice_result_is_empty
  (MessageString Response : string) (w : World) :
  OnVoiceProcessed Response ∈ Trace (HandleWebSocketMessage E MessageString w) ->
  OnVoiceProcessed Response ∈ Trace w \/ Response = "".
Proof.
  unfold HandleWebSocketMessage.
  repeat case_match; unfold Emit; cbn [Trace];
    rewrite ?elem_of_app, ?list_elem_of_singleton; try by intuition discriminate.
  intros [?|Hv]; [by left|right].
  injection Hv as ->.
  match goal with H : HasField _ "response" = false |- _ =>
    by rewrite (TryGetStringField_missing E _ _ H) end.
Qed.

(** X3: a frame whose "type" field reads as a string is a generic event
    whatever else it holds: the first new effect is the generic-event
    notification with that type, it is followed by nothing or by one
    resource-mode notification, and when "data" is an object the data
    handed over is that object as the writer serialises it. *)
Theorem HandleWebSocketMessage_type_first
  (MessageString EventType : string) (JsonObject : FJsonObject) (w : World) :
  ParseJSON E MessageString = Some JsonObject ->
  TryGetStringField E JsonObject "type" = Some EventType ->
  exists (EventData : string) (rest : list Effect),
    Trace (HandleWebSocketMessage E MessageString w)
    = Trace w ++ OnALEJOEvent EventType EventData :: rest /\
    (rest = [] \/ exists NewMode, rest = [OnResourceModeChanged NewMode]) /\
    (forall d, FindField JsonObject "data" = Some (JObject d) -> EventData = Serialize E d).
Proof.
  intros Hparse Htype. unfold HandleWebSocketMessage. rewrite Hparse, Htype.
  assert (Hdata : forall d, FindField JsonObject "data" = Some (JObject d) ->
                  match GetObjectField E JsonObject "data" with
                  | Some d0 => Serialize E d0
                  | None => default "" (TryGetStringField E JsonObject "data")
                  end = Serialize E d).
  { intros d Hd. unfold GetObjectField. by rewrite Hd. }
  exists (match GetObjectField E JsonObject "data" with
          | Some d0 => Serialize E d0
          | None => default "" (TryGetStringField E JsonObject "data")
          end).
  destruct (FString_Equals EventType "resource.mode.changed");
    [destruct (GetObjectField E JsonObject "data") as [d|] eqn:Hobj;
     [destruct (TryGetStringField E d "mode") as [m|]|]|];
    eexists; (split; [unfold Emit; cbn [Trace]; rewrite <- ?app_assoc; reflexivity|]);
    (split; [eauto | exact Hdata]).
Qed.
End HandlerResults.

Lemma HandleWebSocketMessage_voice_result_is_empty_witness :
  OnVoiceProcessed "" ∈ Trace (HandleWebSocketMessage SessionEngine CommandOnlyFrame InitialWorld)
  /\ (OnVoiceProcessed "" ∈ Trace InitialWorld \/ "" = "").
Proof.
  assert (Hin : OnVoiceProcessed ""
                ∈ Trace (HandleWebSocketMessage SessionEngine CommandOnlyFrame InitialWorld))
    by (apply list_elem_of_singleton; reflexivity).
  split; [exact Hin|].
  exact (HandleWebSocketMessage_voice_result_is_empty SessionEngine _ _ _ Hin).
Defined.

Lemma HandleWebSocketMessage_type_first_witness :
  exists EventData rest,
    Trace (HandleWebSocketMessage DemoEngine ResourceModeFrame InitialWorld)
    = OnALEJOEvent "resource.mode.changed" EventData :: rest.
Proof.
  destruct (HandleWebSocketMessage_type_first DemoEngine ResourceModeFrame
              "resource.mode.changed" ResourceModeObject InitialWorld eq_refl eq_refl)
    as (EventData & rest & Htrace & _).
  exists EventData, rest. exact Htrace.
Defined.

(** ** The connection, continued *)

Lemma LiveSockets_insert (l : list ESocketState) (h : nat) (x y : ESocketState) :
  l !! h = Some x -> IsLive x = true -> IsLive y = false ->
  S (length (List.filter IsLive (<[h := y]> l))) = length (List.filter IsLive l).
Proof.
  revert h. induction l as [|a l IH]; intros [|h] Hl Hx Hy; try done.
  - injection Hl as ->. cbn. by rewrite Hx, Hy.
  - cbn in Hl |- *. destruct (IsLive a); cbn; [f_equal|]; by apply IH.
Qed.

Lemma Disconnect_connected (w : World) (h : nat) :
  WebSocket w = Some h -> Sockets w !! h = Some SocketOpen ->
  Disconnect w = {| Sockets := <[h := SocketClosing]> (Sockets w);
                    WebSocket := None;
                    Trace := Trace w ++ [SocketClose h] |}.
Proof. unfold Disconnect, IsConnected. by intros -> ->. Qed.

Lemma Disconnect_not_connected (w : World) : IsConnected w = false -> Disconnect w = w.
Proof. unfold Disconnect. intros ->. by destruct (WebSocket w). Qed.

Lemma IsConnected_Disconnect (w : World) : IsConnected (Disconnect w) = false.
Proof.
  destruct (IsConnected w) eqn:Hc.
  - destruct (IsConnected_holds w Hc) as (h & Hh & Hs).
    by rewrite (Disconnect_connected w h Hh Hs).
  - by rewrite Disconnect_not_connected.
Qed.

(** X4: [Disconnect] while connected closes the held socket, lets go of
    it and leaves one live socket fewer; while not connected it changes
    nothing. Either way the subsystem is not connected afterwards, and a
    second [Disconnect] changes nothing more. *)
Theorem Disconnect_closes_held_socket (w : World) :
  (IsConnected w = true ->
   exists h, WebSocket w = Some h /\
     Disconnect w = {| Sockets := <[h := SocketClosing]> (Sockets w);
                       WebSocket := None;
                       Trace := Trace w ++ [SocketClose h] |} /\
     S (LiveSockets (Disconnect w)) = LiveSockets w) /\
  (IsConnected w = false -> Disconnect w = w) /\
  IsConnected (Disconnect w) = false /\
  Disconnect (Disconnect w) = Disconnect w.
Proof.
  split; [|split; [apply Disconnect_not_connected|split]].
  - intros Hc. destruct (IsConnected_holds w Hc) as (h & Hh & Hs).
    exists h. split; [done|]. rewrite (Disconnect_connected w h Hh Hs). split; [done|].
    unfold LiveSockets. cbn [Sockets]. by apply (LiveSockets_insert _ _ SocketOpen).
  - apply IsConnected_Disconnect.
  - apply Disconnect_not_connected, IsConnected_Disconnect.
Qed.

Lemma Disconnect_closes_held_socket_witness :
  Trace (Disconnect ConnectedWorld) = [SocketClose 0] /\
  LiveSockets (Disconnect ConnectedWorld) = 0.
Proof.
  destruct (Disconnect_closes_held_socket ConnectedWorld) as [Hclose _].
  destruct (Hclose eq_refl) as (h & Hh & Hd & Hlive).
  injection Hh as <-. rewrite Hd. split; reflexivity.
Defined.

Section ConnectionResults.
Context (E : JsonEngine).

(** X5: [Disconnect] does not cancel a connection that is still being
    made. While the held socket is connecting [Disconnect] changes
    nothing, and when the transport then opens that socket the subsystem
    is [Connected] and has broadcast [OnConnected]. *)
Theorem Disconnect_keeps_pending_connection (w : World) (h : nat) :
  WebSocket w = Some h -> Sockets w !! h = Some SocketConnecting ->
  Disconnect w = w /\
  let w' := SocketOnConnected (SetSocket h SocketOpen (Disconnect w)) in
  Step E (Disconnect w) w' /\
  ConnectionState w' = Connected /\
  Trace w' = Trace w ++ [OnConnected].
Proof.
  intros Hh Hs.
  assert (Hd : Disconnect w = w).
  { apply Disconnect_not_connected. unfold IsConnected. by rewrite Hh, Hs. }
  split; [done|]. rewrite Hd. cbn zeta. split; [by apply StepOpened|].
  split; [|done].
  unfold ConnectionState, SocketOnConnected, SetSocket, Emit. cbn [WebSocket Sockets].
  rewrite Hh, list_lookup_insert_eq; [done|]. by eapply lookup_lt_Some.
Qed.

Lemma StepFacts_same (w : World) : StepFacts w w [].
Proof.
  split; [by rewrite app_nil_r|]. split; [cbn; lia|]. split; [cbn; lia|].
  intros h d Hin. by apply elem_of_nil in Hin.
Qed.

Lemma StepFacts_broadcast (e : Effect) (w : World) :
  IsBroadcast e = true -> StepFacts w (Emit e w) [e].
Proof.
  intros He. split; [done|]. split; [|split].
  - destruct e; try done; cbn; lia.
  - destruct e; try done; cbn; lia.
  - intros h d Hin. apply list_elem_of_singleton in Hin. by subst e.
Qed.

Lemma StepFacts_send (Data : string) (w : World) :
  IsConnected w = true -> exists es, StepFacts w (Send Data w) es.
Proof.
  intros Hc. destruct (IsConnected_holds w Hc) as (h & Hh & _).
  rewrite (Send_connected Data w h Hh).
  exists [SocketSend h Data]. split; [done|]. split; [cbn; lia|]. split; [cbn; lia|].
  intros h' d Hin. apply list_elem_of_singleton in Hin. by injection Hin as -> ->.
Qed.

Lemma broadcasts_neither_create_nor_send (es : list Effect) :
  Forall (fun e => IsBroadcast e = true) es ->
  List.filter IsCreate es = [] /\ List.filter IsSend es = [].
Proof.
  induction 1 as [|e es He _ [IH1 IH2]]; [done|].
  destruct e; try done; cbn; by rewrite ?IH1, ?IH2.
Qed.

(** Every step, by cases on the step. *)
Lemma Step_facts (w w' : World) : Step E w w' -> exists es, StepFacts w w' es.
Proof.
  intros Hstep. destruct Hstep.
  - unfold Connect. destruct (IsConnected w) eqn:Hc; [exists []; apply StepFacts_same|].
    eexists. split; [reflexivity|]. cbn [Sockets ConnectToWebSocket].
    rewrite length_app. split; [cbn; lia|]. split; [cbn; lia|].
    intros h d Hin. rewrite !elem_of_cons in Hin. destruct Hin as [?|[?|Hin]]; try done.
    by apply elem_of_nil in Hin.
  - destruct (IsConnected w) eqn:Hc.
    + destruct (IsConnected_holds w Hc) as (h & Hh & Hs).
      rewrite (Disconnect_connected w h Hh Hs). eexists. split; [reflexivity|].
      cbn [Sockets]. rewrite length_insert. split; [cbn; lia|]. split; [cbn; lia|].
      intros h' d Hin. apply list_elem_of_singleton in Hin. done.
    + rewrite Disconnect_not_connected by done. exists []. apply StepFacts_same.
  - unfold ProcessText. destruct (IsConnected w) eqn:Hc; cbn [negb].
    + by apply StepFacts_send.
    + eexists. by apply StepFacts_broadcast.
  - unfold ProcessVoiceCommand. destruct (IsConnected w) eqn:Hc; cbn [negb].
    + by apply StepFacts_send.
    + eexists. by apply StepFacts_broadcast.
  - unfold UpdateAccessibilitySettings.
    destruct (IsConnected w) eqn:Hc; cbn [negb orb];
      [|eexists; by apply StepFacts_broadcast].
    destruct Settings as [P|].
    + rewrite bool_decide_eq_true_2 by eauto. cbn [negb]. by apply StepFacts_send.
    + rewrite bool_decide_eq_false_2 by (by intros [? ?]). cbn [negb].
      eexists. by apply StepFacts_broadcast.
  - unfold SendCustomEvent. destruct (IsConnected w) eqn:Hc; cbn [negb].
    + by apply StepFacts_send.
    + eexists. by apply StepFacts_broadcast.
  - exists [OnConnected]. split; [done|]. cbn [Sockets SocketOnConnected SetSocket Emit].
    rewrite length_insert. split; [cbn; lia|]. split; [cbn; lia|].
    intros h' d Hin. by apply list_elem_of_singleton in Hin.
  - exists [OnError Error]. split; [done|].
    cbn [Sockets SocketOnConnectionError SetSocket Emit].
    rewrite length_insert. split; [cbn; lia|]. split; [cbn; lia|].
    intros h' d Hin. by apply list_elem_of_singleton in Hin.
  - exists [OnDisconnected]. split; [done|]. cbn [Sockets SocketOnClosed SetSocket Emit].
    rewrite length_insert. split; [cbn; lia|]. split; [cbn; lia|].
    intros h' d Hin. by apply list_elem_of_singleton in Hin.
  - destruct (HandleWebSocketMessage_emits E MessageString w) as (es & -> & _ & Hb & _).
    destruct (broadcasts_neither_create_nor_send es Hb) as [Hc Hs].
    exists es. split; [done|]. cbn [Sockets]. rewrite Hc, Hs.
    split; [cbn; lia|]. split; [cbn; lia|].
    intros h' d Hin. rewrite Forall_forall in Hb. by apply Hb in Hin.
Qed.

(** X6: no step of a session, be it a call of the public interface or a
    callback of the transport, writes to a socket unless the subsystem is
    connected before the step; a step writes at most once, and to the
    held socket. *)
Theorem Step_sends_only_when_connected (w w' : World) :
  Step E w w' ->
  exists es, Trace w' = Trace w ++ es /\
    length (List.filter IsSend es) <= 1 /\
    (forall h Data, SocketSend h Data ∈ es -> IsConnected w = true /\ WebSocket w = Some h).
Proof.
  intros Hstep. destruct (Step_facts w w' Hstep) as (es & Ht & _ & Hs & Hc). eauto.
Qed.

(** X7: in every reachable state the sockets are exactly those the
    trace records as created, one for each [CreateWebSocket], and the
    socket the subsystem holds is one of them. *)
Theorem Reachable_sockets_are_created (w : World) :
  Reachable E w ->
  length (Sockets w) = length (List.filter IsCreate (Trace w)) /\
  (forall h, WebSocket w = Some h -> h < length (Sockets w)).
Proof.
  intros Hreach. split; [|intros h; by apply (Reachable_holds_created_socket E)].
  induction Hreach as [|w w' _ IH Hstep]; [done|].
  destruct (Step_facts w w' Hstep) as (es & Ht & Hlen & _).
  rewrite Ht, List.filter_app, length_app. lia.
Qed.
End ConnectionResults.

Lemma Disconnect_keeps_pending_connection_witness :
  let w := Connect "ws://localhost:3030" InitialWorld in
  ConnectionState (SocketOnConnected (SetSocket 0 SocketOpen (Disconnect w))) = Connected.
Proof.
  by apply (Disconnect_keeps_pending_connection SessionEngine
              (Connect "ws://localhost:3030" InitialWorld) 0).
Defined.

Lemma Step_sends_only_when_connected_witness :
  exists es,
    Trace (ProcessText SessionEngine "hello" [] ConnectedWorld) = Trace ConnectedWorld ++ es /\
    length (List.filter IsSend es) <= 1.
Proof.
  destruct (Step_sends_only_when_connected SessionEngine ConnectedWorld _
              (StepProcessText SessionEngine "hello" [] ConnectedWorld))
    as (es & Ht & Hs & _).
  exists es. split; assumption.
Defined.

Lemma Reachable_sockets_are_created_witness :
  let w := Connect "ws://localhost:3030" InitialWorld in
  length (Sockets w) = length (List.filter IsCreate (Trace w)).
Proof.
  apply (Reachable_sockets_are_created SessionEngine).
  eapply ReachableStep; [apply ReachableInitial | apply StepConnect].
Defined.

(** ** The outbound frames *)

Lemma ContextToJsonObject_other (Context : list (string * string)) (acc : FJsonObject)
  (k : string) :
  ToLower k ∉ List.map (fun Pair => ToLower (fst Pair)) Context ->
  FindField (fold_left (fun o Pair => SetStringField (fst Pair) (snd Pair) o) Context acc) k
  = FindField acc k.
Proof.
  revert acc. induction Context as [|[k0 v0] Context IH]; intros acc Hk; [done|].
  cbn in Hk |- *. apply not_elem_of_cons in Hk as [Hne Hk].
  rewrite IH by done. cbn [fst snd]. unfold SetStringField.
  apply FindField_SetField_ne. congruence.
Qed.

Lemma ContextToJsonObject_entry (Context : list (string * string)) (acc : FJsonObject)
  (k v : string) :
  IsTMap Context -> (k, v) ∈ Context ->
  FindField (fold_left (fun o Pair => SetStringField (fst Pair) (snd Pair) o) Context acc) k
  = Some (JString v).
Proof.
  unfold IsTMap. revert acc.
  induction Context as [|[k0 v0] Context IH]; intros acc Hnd Hin.
  - by apply elem_of_nil in Hin.
  - cbn in Hnd |- *. apply NoDup_cons in Hnd as [Hfresh Hnd].
    apply elem_of_cons in Hin as [Heq|Hin].
    + injection Heq as -> ->. rewrite ContextToJsonObject_other by done.
      apply FindField_SetField_eq.
    + by apply IH.
Qed.

(** Decides whether a document built by a chain of [Set...Field] has a
    field. *)
Ltac has_field := unfold HasField; find_field; reflexivity.

Section OutboundResults.
Context (E : JsonEngine).

Lemma ProcessText_connected (Text : string) (Context : list (string * string))
  (w : World) (h : nat) :
  IsConnected w = true -> WebSocket w = Some h ->
  exists doc, ProcessText E Text Context w = Emit (SocketSend h (Serialize E doc)) w /\
     FrameKeys doc = (true, false, false, false) /\
     TryGetStringField E doc "text" = Some Text.
Proof.
  intros Hc Hh. unfold ProcessText. rewrite Hc. cbn [negb]. rewrite (Send_connected _ w h Hh).
  eexists. split; [reflexivity|]. unfold FrameKeys, TryGetStringField.
  destruct (0 <? length Context)%nat; split; try (by find_field);
    repeat f_equal; has_field.
Qed.

(** X8: while connected, each of the four sending operations writes one
    serialised document to the held socket, and the documents tell
    themselves apart by their keys: of "text", "command", "type" and
    "highContrastMode" a text frame has only "text" (holding the text), a
    voice frame only "command" (holding the command), a custom event only
    "type" (holding the event type) and a settings frame only
    "highContrastMode". The context and the event data never add one of
    these keys at the top level. *)
Theorem Outbound_frames_are_self_describing
  (Text Command EventType EventData : string) (Context : list (string * string))
  (P : UALEJOAccessibilitySettings) (w : World) :
  IsConnected w = true ->
  exists h, WebSocket w = Some h /\
  (exists doc, ProcessText E Text Context w = Emit (SocketSend h (Serialize E doc)) w /\
     FrameKeys doc = (true, false, false, false) /\
     TryGetStringField E doc "text" = Some Text) /\
  (exists doc, ProcessVoiceCommand E Command Context w
               = Emit (SocketSend h (Serialize E doc)) w /\
     FrameKeys doc = (false, true, false, false) /\
     TryGetStringField E doc "command" = Some Command) /\
  (exists doc, SendCustomEvent E EventType EventData w
               = Emit (SocketSend h (Serialize E doc)) w /\
     FrameKeys doc = (false, false, true, false) /\
     TryGetStringField E doc "type" = Some EventType) /\
  (exists doc, UpdateAccessibilitySettings E (Some P) w
               = Emit (SocketSend h (Serialize E doc)) w /\
     FrameKeys doc = (false, false, false, true)).
Proof.
  intros Hc. destruct (IsConnected_holds w Hc) as (h & Hh & _).
  exists h. split; [done|].
  split; [by apply ProcessText_connected|].
  unfold ProcessVoiceCommand, SendCustomEvent, UpdateAccessibilitySettings.
  rewrite Hc. cbn [negb orb]. rewrite bool_decide_eq_true_2 by eauto. cbn [negb].
  rewrite !(Send_connected _ w h Hh).
  split; [|split].
  - eexists. split; [reflexivity|]. unfold FrameKeys, TryGetStringField.
    destruct (0 <? length Context)%nat; split; try (by find_field);
      repeat f_equal; has_field.
  - eexists. split; [reflexivity|]. unfold FrameKeys, TryGetStringField.
    destruct (Deserialize E EventData); split; try (by find_field);
      repeat f_equal; has_field.
  - eexists. split; [reflexivity|]. unfold FrameKeys, ToJsonObject.
    repeat f_equal; has_field.
Qed.

(** X9: every entry of a non-empty context map reaches the frame
    [ProcessText] sends while connected: the document has an object
    under "context" in which the entry's key reads as the entry's
    value. *)
Theorem Context_entries_reach_the_frame
  (Text : string) (Context : list (string * string)) (k v : string) (w : World) :
  IsConnected w = true -> IsTMap Context -> (k, v) ∈ Context ->
  exists h doc ContextObj,
    ProcessText E Text Context w = Emit (SocketSend h (Serialize E doc)) w /\
    FindField doc "context" = Some (JObject ContextObj) /\
    TryGetStringField E ContextObj k = Some v.
Proof.
  intros Hc Hmap Hin. destruct (IsConnected_holds w Hc) as (h & Hh & _).
  unfold ProcessText. rewrite Hc. cbn [negb]. rewrite (Send_connected _ w h Hh).
  destruct Context as [|Pair Context]; [by apply elem_of_nil in Hin|].
  cbn [length Nat.ltb Nat.leb].
  eexists h, _, _. split; [reflexivity|]. split; [by find_field|].
  unfold TryGetStringField, ContextToJsonObject.
  by rewrite (ContextToJsonObject_entry _ _ k v Hmap Hin).
Qed.

(** X10: a custom event whose data parses as a JSON object, sent while
    connected and handed back unchanged to [HandleWebSocketMessage] (the
    reader reading back what the writer wrote), is announced as a generic
    event with the type that was sent and the data object re-serialised. *)
Theorem SendCustomEvent_loopback
  (EventType EventData : string) (DataObj : FJsonObject) (w : World) :
  IsConnected w = true ->
  Deserialize E EventData = Some DataObj ->
  (let doc := SetObjectField "data" DataObj (SetStringField "type" EventType ∅) in
   Deserialize E (Serialize E doc) = Some doc) ->
  exists h frame,
    SendCustomEvent E EventType EventData w = Emit (SocketSend h frame) w /\
    forall w', exists rest,
      Trace (HandleWebSocketMessage E frame w')
      = Trace w' ++ OnALEJOEvent EventType (Serialize E DataObj) :: rest.
Proof.
  intros Hc Hdata Hecho. destruct (IsConnected_holds w Hc) as (h & Hh & _).
  unfold SendCustomEvent. rewrite Hc, Hdata. cbn [negb]. rewrite (Send_connected _ w h Hh).
  eexists h, _. split; [reflexivity|]. intros w'.
  unfold HandleWebSocketMessage, ParseJSON. cbn zeta in Hecho. rewrite Hecho.
  assert (Htype : TryGetStringField E
            (SetObjectField "data" DataObj (SetStringField "type" EventType ∅)) "type"
          = Some EventType) by (unfold TryGetStringField; by find_field).
  assert (Hobj : GetObjectField E
            (SetObjectField "data" DataObj (SetStringField "type" EventType ∅)) "data"
          = Some DataObj) by (unfold GetObjectField; by find_field).
  rewrite Htype, Hobj.
  repeat case_match; eexists; unfold Emit; cbn [Trace]; rewrite <- ?app_assoc; reflexivity.
Qed.

(** X11: a whole session. From the initial state: [Connect], the
    transport opens the socket, [ProcessText], a reply frame with a
    "response" string and no "type", [Disconnect], [ProcessText] again.
    The state is [Connecting], then [Connected], in the end
    [Disconnected], and the trace is exactly: socket created, connect
    called, [OnConnected], one frame sent holding the text,
    [OnTextProcessed] with the response, the socket closed, and the error
    "Not connected to ALEJO bridge" for the second [ProcessText]. *)
Theorem Session_scenario
  (ServerURL Text MessageString Response : string) (Context : list (string * string))
  (JsonObject : FJsonObject) :
  ParseJSON E MessageString = Some JsonObject ->
  HasField JsonObject "type" = false ->
  FindField JsonObject "response" = Some (JString Response) ->
  let w1 := Connect ServerURL InitialWorld in
  let w2 := SocketOnConnected (SetSocket 0 SocketOpen w1) in
  let w3 := ProcessText E Text Context w2 in
  let w4 := HandleWebSocketMessage E MessageString w3 in
  let w5 := Disconnect w4 in
  let w6 := ProcessText E Text Context w5 in
  Reachable E w6 /\
  ConnectionState w1 = Connecting /\
  ConnectionState w2 = Connected /\
  ConnectionState w5 = Disconnected /\
  exists doc,
    TryGetStringField E doc "text" = Some Text /\
    Trace w6 = [CreateWebSocket ServerURL 0; SocketConnect 0; OnConnected;
                SocketSend 0 (Serialize E doc); OnTextProcessed Response;
                SocketClose 0; OnError "Not connected to ALEJO bridge"].
Proof.
  intros Hparse Htype Hresp. cbn zeta.
  set (w1 := Connect ServerURL InitialWorld).
  set (w2 := SocketOnConnected (SetSocket 0 SocketOpen w1)).
  set (w3 := ProcessText E Text Context w2).
  set (w4 := HandleWebSocketMessage E MessageString w3).
  assert (H3 : exists doc, TryGetStringField E doc "text" = Some Text /\
             w3 = Emit (SocketSend 0 (Serialize E doc)) w2).
  { destruct (ProcessText_connected Text Context w2 0 eq_refl eq_refl)
      as (doc & Hdoc & _ & Ht). eauto. }
  destruct H3 as (doc & Hdoc & H3).
  assert (H4 : w4 = Emit (OnTextProcessed Response) w3).
  { unfold w4, HandleWebSocketMessage.
    rewrite Hparse, (TryGetStringField_missing E _ _ Htype), (HasField_true _ _ _ Hresp).
    unfold TryGetStringField. by rewrite Hresp. }
  assert (H5 : Disconnect w4 = {| Sockets := [SocketClosing]; WebSocket := None;
                                   Trace := Trace w4 ++ [SocketClose 0] |}).
  { rewrite H4, H3. reflexivity. }
  split; [|split; [done|split; [done|split; [by rewrite H5|]]]].
  - assert (R1 : Reachable E w1)
      by (eapply ReachableStep; [apply ReachableInitial | apply StepConnect]).
    assert (R2 : Reachable E w2)
      by (eapply ReachableStep; [exact R1 | by apply (StepOpened E 0)]).
    assert (R3 : Reachable E w3)
      by (eapply ReachableStep; [exact R2 | apply StepProcessText]).
    assert (R4 : Reachable E w4).
    { eapply ReachableStep; [exact R3 | apply (StepMessage E 0)]. by rewrite H3. }
    eapply ReachableStep; [eapply ReachableStep; [exact R4 | apply StepDisconnect]|].
    apply StepProcessText.
  - exists doc. split; [done|]. rewrite H5. unfold ProcessText. cbn [IsConnected WebSocket negb].
    unfold Emit. cbn [Trace]. rewrite H4, H3. reflexivity.
Qed.
End OutboundResults.

Lemma Outbound_frames_are_self_describing_witness :
  exists doc,
    ProcessText SessionEngine "hello" [] ConnectedWorld
    = Emit (SocketSend 0 (Serialize SessionEngine doc)) ConnectedWorld /\
    FrameKeys doc = (true, false, false, false).
Proof.
  destruct (Outbound_frames_are_self_describing SessionEngine "hello" "go" "ui.event" "{}" []
              LargePrintSettings ConnectedWorld eq_refl)
    as (h & Hh & (doc & Hdoc & Hkeys & _) & _).
  injection Hh as <-. exists doc. split; assumption.
Defined.

Lemma Context_entries_reach_the_frame_witness :
  exists h doc ContextObj,
    ProcessText SessionEngine "hello" [("level", "3")] ConnectedWorld
    = Emit (SocketSend h (Serialize SessionEngine doc)) ConnectedWorld /\
    FindField doc "context" = Some (JObject ContextObj) /\
    TryGetStringField SessionEngine ContextObj "level" = Some "3".
Proof.
  apply Context_entries_reach_the_frame.
  - reflexivity.
  - unfold IsTMap. cbn [List.map]. apply NoDup_singleton.
  - apply list_elem_of_singleton. reflexivity.
Defined.

Lemma SendCustomEvent_loopback_witness :
  exists h frame,
    SendCustomEvent SessionEngine "voice.listening.start" "{}" ConnectedWorld
    = Emit (SocketSend h frame) ConnectedWorld /\
    forall w', exists rest,
      Trace (HandleWebSocketMessage SessionEngine frame w')
      = Trace w' ++ OnALEJOEvent "voice.listening.start" (Serialize SessionEngine ∅) :: rest.
Proof.
  apply SendCustomEvent_loopback; reflexivity.
Defined.

Lemma Session_scenario_witness :
  let w1 := Connect "ws://localhost:3030" InitialWorld in
  let w2 := SocketOnConnected (SetSocket 0 SocketOpen w1) in
  let w3 := ProcessText SessionEngine "hello" [] w2 in
  let w4 := HandleWebSocketMessage SessionEngine HelloFrame w3 in
  ConnectionState (Disconnect w4) = Disconnected.
Proof.
  exact (proj1 (proj2 (proj2 (proj2
    (Session_scenario SessionEngine "ws://localhost:3030" "hello" HelloFrame "Hello!" []
       HelloObject eq_refl eq_refl eq_refl))))).
Defined.

(** ** The settings object, continued *)

Lemma default_default {A} (x : A) (m : option A) : default (default x m) m = default x m.
Proof. by destruct m. Qed.

Lemma default_is_Some {A} (x y : A) (m : option A) : is_Some m -> default x m = default y m.
Proof. by intros [z ->]. Qed.

Lemma FindField_SetField (k k' : string) (v : FJsonValue) (o : FJsonObject) :
  FindField (SetField k v o) k'
  = if decide (ToLower k = ToLower k') then Some v else FindField o k'.
Proof. unfold FindField, SetField. apply lookup_insert. Qed.

Section SettingsMore.
Context (F : FloatArith) (E : JsonEngine).

(** X12: [FromJsonString] is idempotent: reading the same text a second
    time into the object the first reading produced gives the same
    success flag and leaves the object as the first reading left it. *)
Theorem FromJsonString_idempotent (JsonString : string) (P : UALEJOAccessibilitySettings) :
  FromJsonString F E JsonString (snd (FromJsonString F E JsonString P))
  = FromJsonString F E JsonString P.
Proof.
  unfold FromJsonString. destruct (Deserialize E JsonString) as [o|]; [|done].
  cbn [snd]. f_equal. unfold ApplyJsonObject. settings_members.
  by rewrite !default_default.
Qed.

Lemma TryGetBoolField_unknown (o : FJsonObject) (k key : string) (v : FJsonValue) :
  ToLower k ≠ ToLower key -> TryGetBoolField E (SetField k v o) key = TryGetBoolField E o key.
Proof. intros Hne. unfold TryGetBoolField. by rewrite FindField_SetField_ne. Qed.

Lemma TryGetStringField_unknown (o : FJsonObject) (k key : string) (v : FJsonValue) :
  ToLower k ≠ ToLower key ->
  TryGetStringField E (SetField k v o) key = TryGetStringField E o key.
Proof. intros Hne. unfold TryGetStringField. by rewrite FindField_SetField_ne. Qed.

Lemma TryGetNumberField_unknown (o : FJsonObject) (k key : string) (v : FJsonValue) :
  ToLower k ≠ ToLower key ->
  TryGetNumberField F E (SetField k v o) key = TryGetNumberField F E o key.
Proof. intros Hne. unfold TryGetNumberField. by rewrite FindField_SetField_ne. Qed.

(** X13: a key that is none of the seventeen settings keys (compared
    without regard to case) is ignored: adding a field under such a key
    to a document, whatever its value, does not change what the document
    does to a settings object. *)
Theorem FromJsonString_ignores_unknown_keys
  (o : FJsonObject) (k : string) (v : FJsonValue) (P : UALEJOAccessibilitySettings) :
  (forall key, key ∈ SettingsKeys -> ToLower k ≠ ToLower key) ->
  ApplyJsonObject F E (SetField k v o) P = ApplyJsonObject F E o P.
Proof.
  intros Hk. unfold ApplyJsonObject.
  rewrite !TryGetBoolField_unknown, !TryGetStringField_unknown, !TryGetNumberField_unknown
    by (apply Hk; unfold SettingsKeys; set_solver).
  reflexivity.
Qed.

(** X15: a document in which all seventeen reads succeed replaces the
    settings object entirely: the object after the reading does not
    depend on the object before it. *)
Theorem FromJsonString_full_document_replaces
  (o : FJsonObject) (P1 P2 : UALEJOAccessibilitySettings) :
  IsFullDocument F E o -> ApplyJsonObject F E o P1 = ApplyJsonObject F E o P2.
Proof.
  intros (Hb & Hn & Hs). unfold ApplyJsonObject.
  f_equal; apply default_is_Some;
    first [apply Hb; unfold BoolKeys | apply Hn; unfold NumberKeys | apply Hs; unfold StringKeys];
    set_solver.
Qed.
End SettingsMore.

(** X14: the document [ToJsonString] serialises has exactly the
    seventeen settings keys, whatever the settings hold: a field name is
    present if and only if it is one of the seventeen, compared without
    regard to case, and the document has seventeen fields. *)
Theorem ToJsonObject_keys (P : UALEJOAccessibilitySettings) (k : string) :
  (HasField (ToJsonObject P) k = true <-> ToLower k ∈ ToLower <$> SettingsKeys) /\
  size (ToJsonObject P) = 17.
Proof.
  split.
  - unfold HasField, ToJsonObject, SetBoolField, SetNumberField, SetStringField.
    rewrite !FindField_SetField, FindField_empty.
    unfold SettingsKeys.
    repeat case_decide;
      try (split; [intros _|done];
           match goal with H : _ = ToLower k |- _ => rewrite <- H end;
           vm_compute; set_solver).
    split; [done|]. intros Hin. exfalso.
    rewrite !fmap_cons, fmap_nil, !elem_of_cons, elem_of_nil in Hin.
    intuition congruence.
  - destruct P. vm_compute. reflexivity.
Qed.

Lemma theme_is_no_settings_key (key : string) :
  key ∈ SettingsKeys -> ToLower "theme" ≠ ToLower key.
Proof.
  unfold SettingsKeys. rewrite !elem_of_cons, elem_of_nil.
  intros Hin Heq.
  repeat (destruct Hin as [->|Hin]; [vm_compute in Heq; discriminate|]).
  exact Hin.
Qed.

Lemma FromJsonString_ignores_unknown_keys_witness :
  ApplyJsonObject ExactArith DemoEngine (SetField "theme" (JString "dark") LargeFontObject)
    (DefaultSettings ExactArith)
  = ApplyJsonObject ExactArith DemoEngine LargeFontObject (DefaultSettings ExactArith).
Proof.
  apply FromJsonString_ignores_unknown_keys. exact theme_is_no_settings_key.
Defined.

Lemma ToJsonObject_is_full (P : UALEJOAccessibilitySettings) :
  IsFullDocument ExactArith DemoEngine (ToJsonObject P).
Proof.
  split; [|split]; intros k;
    unfold BoolKeys, NumberKeys, StringKeys; rewrite !elem_of_cons, elem_of_nil;
    intros Hin;
    repeat (destruct Hin as [->|Hin];
            [unfold TryGetBoolField, TryGetNumberField, TryGetStringField, ToJsonObject;
             find_field; cbn [mbind option_bind fmap option_fmap option_map
                              TryGetBool TryGetNumber TryGetString]; eauto|]);
    destruct Hin.
Qed.

Lemma FromJsonString_full_document_replaces_witness :
  ApplyJsonObject ExactArith DemoEngine (ToJsonObject LargePrintSettings)
    (DefaultSettings ExactArith)
  = ApplyJsonObject ExactArith DemoEngine (ToJsonObject LargePrintSettings) ColorBlindSettings.
Proof.
  apply FromJsonString_full_document_replaces. apply ToJsonObject_is_full.
Defined.

#[local] Open Scope R_scope.

(** ** The contrast engine, continued *)


Ltac enclose lem Ha Hb := eapply lem; [exact Ha | exact Hb | lra ..].

Section ColourResults.
Context (F : FloatArith) (HF : IsFloatArith F).

Lemma LinearChannel_four_tenths : 0 <= LinearChannel F (flit F 0.4) <= 0.1862.
Proof.
  assert (Hc : 0.39999 <= flit F 0.4 <= 0.40001) by (apply (flit_encl F HF); lra).
  rewrite (LinearChannel_above F HF) by lra.
  assert (Hx := PowerBase_encl F HF _ _ _ 0.4312 0.4314 Hc ltac:(lra) ltac:(lra)
                  ltac:(lra) ltac:(lra)).
  enclose (Pow_encl F HF) Hx (exponent_encl F HF).
Qed.

Lemma LinearChannel_seven_tenths : 0 <= LinearChannel F (flit F 0.7) <= 0.5125.
Proof.
  assert (Hc : 0.69999 <= flit F 0.7 <= 0.70001) by (apply (flit_encl F HF); lra).
  rewrite (LinearChannel_above F HF) by lra.
  assert (Hx := PowerBase_encl F HF _ _ _ 0.7155 0.7158 Hc ltac:(lra) ltac:(lra)
                  ltac:(lra) ltac:(lra)).
  enclose (Pow_encl F HF) Hx (exponent_encl F HF).
Qed.

Lemma LinearChannel_off_white : 0.864 <= LinearChannel F (flit F 0.95) <= 0.9078.
Proof.
  assert (Hc : 0.94999 <= flit F 0.95 <= 0.95001) by (apply (flit_encl F HF); lra).
  rewrite (LinearChannel_above F HF) by lra.
  assert (Hx := PowerBase_encl F HF _ _ _ 0.9525 0.9527 Hc ltac:(lra) ltac:(lra)
                  ltac:(lra) ltac:(lra)).
  enclose (Pow_encl F HF) Hx (exponent_encl F HF).
Qed.

Lemma CalculateLuminance_sea_blue (a : R) :
  0 <= CalculateLuminance F (LinearColor 0 (flit F 0.4) (flit F 0.7) a) <= 0.1724.
Proof.
  assert (H4 := LinearChannel_four_tenths). assert (H7 := LinearChannel_seven_tenths).
  apply (CalculateLuminance_upper F HF _ 0.01 0.1862 0.5125); cbn;
    rewrite ?(LinearChannel_zero F HF); lra.
Qed.

Lemma CalculateLuminance_charcoal (a : R) :
  0 <= CalculateLuminance F (LinearColor (flit F 0.2) (flit F 0.2) (flit F 0.2) a) <= 0.0586.
Proof.
  assert (H2 := LinearChannel_two_tenths F HF).
  apply (CalculateLuminance_upper F HF _ 0.0585 0.0585 0.0585); cbn; lra.
Qed.

Lemma CalculateLuminance_off_white (a : R) :
  0.8639 <= CalculateLuminance F (LinearColor (flit F 0.95) (flit F 0.95) (flit F 0.95) a)
  <= 1.02.
Proof.
  assert (H9 := LinearChannel_off_white).
  apply (CalculateLuminance_lower F HF _ 0.864 0.864 0.864); cbn; lra.
Qed.

(** X16: every pair [GetAccessibleColorPair] returns is readable,
    whatever the settings, a null settings pointer included: the
    background is darker than the foreground and their contrast ratio, as
    [GetContrastRatio] computes it, is at least 4.5. *)
Theorem GetAccessibleColorPair_always_readable
  (AccessibilitySettings : option UALEJOAccessibilitySettings)
  (bIsButtonOrInteractive : bool) :
  let Pair := GetAccessibleColorPair F AccessibilitySettings bIsButtonOrInteractive in
  CalculateLuminance F (fst Pair) < CalculateLuminance F (snd Pair) /\
  4.5 <= GetContrastRatio F (fst Pair) (snd Pair).
Proof.
  assert (Hw := CalculateLuminance_white F HF 1).
  assert (Hy := CalculateLuminance_yellow F HF 1).
  assert (Hlg := CalculateLuminance_light_gray F HF 1).
  assert (How := CalculateLuminance_off_white 1).
  assert (Hdb := CalculateLuminance_dark_blue F HF 1).
  assert (Hb := CalculateLuminance_blue F HF 1).
  assert (Hdg := CalculateLuminance_dark_gray F HF 1).
  assert (Hsb := CalculateLuminance_sea_blue 1).
  assert (Hch := CalculateLuminance_charcoal 1).
  assert (Hbl : 0 <= CalculateLuminance F (LinearColor 0 0 0 1) <= 0).
  { fold Black. rewrite (CalculateLuminance_black F HF). lra. }
  unfold GetAccessibleColorPair.
  destruct AccessibilitySettings as [Settings|];
    [destruct (bHighContrastMode Settings), (bColorBlindMode Settings)|];
    destruct bIsButtonOrInteractive; cbn [fst snd]; (split; [lra|]).
  all: first
    [ apply (GetContrastRatio_lower F HF _ _ 0.0568 0.9996); (assumption || lra)
    | apply (GetContrastRatio_lower F HF _ _ 0 0.9274); (assumption || lra)
    | apply (GetContrastRatio_lower F HF _ _ 0.1724 0.9996); (assumption || lra)
    | apply (GetContrastRatio_lower F HF _ _ 0.0586 0.8639); (assumption || lra)
    | apply (GetContrastRatio_lower F HF _ _ 0.1018 0.9996); (assumption || lra)
    | apply (GetContrastRatio_lower F HF _ _ 0.0218 0.7412); (assumption || lra) ].
Qed.

(** Every channel of a colour. *)
Lemma LinearChannel_upper (c : R) : 0 <= c <= 1 -> 0 <= LinearChannel F c <= 1.0003.
Proof.
  intros Hc. split; [by apply (LinearChannel_nonneg F HF)|].
  unfold LinearChannel. destruct (threshold_encl F HF) as [_ Ht].
  destruct (Rle_dec c (flit F 0.03928)) as [Hle|Hgt].
  - assert (Hd : 12.91 <= flit F 12.92 <= 12.93) by (apply (flit_encl F HF); lra).
    assert (Hc' : 0 <= c <= 0.0393) by lra.
    assert (H := fdiv_encl F HF c (flit F 12.92) 0 0.0393 12.91 12.93 0 1 Hc' Hd).
    lra.
  - assert (Hx := PowerBase_encl F HF c 0 1 0.05 1.00004 Hc ltac:(lra) ltac:(lra)
                    ltac:(lra) ltac:(lra)).
    assert (Hp : 0 <= Pow F (fdiv F (fadd F c (flit F 0.055)) (flit F 1.055)) (flit F 2.4)
                 <= 1.0003).
    { enclose (Pow_encl F HF) Hx (exponent_encl F HF). }
    apply Hp.
Qed.

Lemma CalculateLuminance_range (c : FLinearColor) :
  IsColor c -> 0 <= CalculateLuminance F c <= 1.0004.
Proof.
  intros (Hr & Hg & Hb).
  apply (CalculateLuminance_upper F HF _ 1.0003 1.0003 1.0003);
    try (by apply LinearChannel_upper); lra.
Qed.

(** X17: for colours with channels in [0, 1] the ratio
    [GetContrastRatio] returns is at least 1, exactly, and at most 21.1. *)
Theorem GetContrastRatio_range (a b : FLinearColor) :
  IsColor a -> IsColor b -> 1 <= GetContrastRatio F a b <= 21.1.
Proof.
  intros Ha Hb.
  assert (La := CalculateLuminance_range a Ha).
  assert (Lb := CalculateLuminance_range b Hb).
  unfold GetContrastRatio.
  set (Lmax := Rmax (CalculateLuminance F a) (CalculateLuminance F b)).
  set (Lmin := Rmin (CalculateLuminance F a) (CalculateLuminance F b)).
  assert (Hmin : 0 <= Lmin <= 1.0004) by (unfold Lmin, Rmin; destruct Rle_dec; lra).
  assert (Hmax : 0 <= Lmax <= 1.0004) by (unfold Lmax, Rmax; destruct Rle_dec; lra).
  assert (Hle : Lmin <= Lmax) by (unfold Lmin, Lmax, Rmin, Rmax; destruct Rle_dec; lra).
  assert (H5 := zero_five_encl F HF).
  assert (Hden : 0.049989 <= fadd F Lmin (flit F 0.05) <= 1.0505).
  { enclose (fadd_encl F HF) Hmin H5. }
  assert (Hnum : 0.049989 <= fadd F Lmax (flit F 0.05) <= 1.0505).
  { enclose (fadd_encl F HF) Hmax H5. }
  assert (Hmono : fadd F Lmin (flit F 0.05) <= fadd F Lmax (flit F 0.05)).
  { unfold fadd. apply (round_monotone F HF). lra. }
  split.
  - unfold fdiv. rewrite <- (round_one F HF). apply (round_monotone F HF).
    apply Rdiv_lower; lra.
  - assert (H := fdiv_encl F HF _ _ 0.049989 1.0505 0.049989 1.0505 0 21.1 Hnum Hden).
    lra.
Qed.

(** X18: [GetColorBlindFriendlyColor] never changes the alpha channel,
    and returns the colour unchanged when the settings pointer is null or
    colour-blind mode is off. *)
Theorem GetColorBlindFriendlyColor_keeps_alpha
  (AccessibilitySettings : option UALEJOAccessibilitySettings) (OriginalColor : FLinearColor) :
  LinearA (GetColorBlindFriendlyColor F AccessibilitySettings OriginalColor)
  = LinearA OriginalColor /\
  (forall Settings, AccessibilitySettings = Some Settings -> bColorBlindMode Settings = false ->
   GetColorBlindFriendlyColor F AccessibilitySettings OriginalColor = OriginalColor) /\
  (AccessibilitySettings = None ->
   GetColorBlindFriendlyColor F AccessibilitySettings OriginalColor = OriginalColor).
Proof.
  unfold GetColorBlindFriendlyColor. split; [|split].
  - destruct AccessibilitySettings as [Settings|]; [|done].
    repeat case_match; reflexivity.
  - by intros Settings -> ->.
  - by intros ->.
Qed.

Lemma blend_encl (x y p q : R) :
  0 <= x <= 1 -> 0 <= y <= 1 -> 0.3 <= p <= 0.4 -> p + q = 1 ->
  0 <= fadd F (fmul F x (flit F p)) (fmul F y (flit F q)) <= 1.00001.
Proof.
  intros Hx Hy Hp Hq.
  assert (Hfp : 0 <= flit F p <= p * (1 + / 1000000)) by (apply (flit_encl F HF); nra).
  assert (Hfq : 0 <= flit F q <= q * (1 + / 1000000)) by (apply (flit_encl F HF); nra).
  assert (Hxp : 0 <= fmul F x (flit F p) <= p * (1 + / 1000000) * (1 + / 1000000)).
  { eapply (fmul_encl F HF); [exact Hx | exact Hfp | try nra ..]; lra. }
  assert (Hyq : 0 <= fmul F y (flit F q) <= q * (1 + / 1000000) * (1 + / 1000000)).
  { eapply (fmul_encl F HF); [exact Hy | exact Hfq | try nra ..]; lra. }
  eapply (fadd_encl F HF); [exact Hxp | exact Hyq | try nra ..]; try lra.
Qed.

(** X19: with colour-blind mode on and the type "Protanopia",
    "Deuteranopia" or "Tritanopia" (compared without regard to case),
    [GetColorBlindFriendlyColor] rewrites at most one of the three colour
    channels and keeps a colour with channels in [0, 1] within
    [0, 1.00001]. *)
Theorem GetColorBlindFriendlyColor_named_types
  (Settings : UALEJOAccessibilitySettings) (OriginalColor : FLinearColor) :
  IsColor OriginalColor -> bColorBlindMode Settings = true ->
  FString_Equals (ColorBlindnessType Settings) "Protanopia" = true \/
  FString_Equals (ColorBlindnessType Settings) "Deuteranopia" = true \/
  FString_Equals (ColorBlindnessType Settings) "Tritanopia" = true ->
  let Result := GetColorBlindFriendlyColor F (Some Settings) OriginalColor in
  0 <= LinearR Result <= 1.00001 /\
  0 <= LinearG Result <= 1.00001 /\
  0 <= LinearB Result <= 1.00001 /\
  ((LinearG Result = LinearG OriginalColor /\ LinearB Result = LinearB OriginalColor) \/
   (LinearR Result = LinearR OriginalColor /\ LinearB Result = LinearB OriginalColor) \/
   (LinearR Result = LinearR OriginalColor /\ LinearG Result = LinearG OriginalColor)).
Proof.
  intros (Hr & Hg & Hb) Hmode Htype. unfold GetColorBlindFriendlyColor. rewrite Hmode.
  cbn [negb].
  assert (B1 := blend_encl (LinearB OriginalColor) (LinearG OriginalColor) 0.4 0.6
                  Hb Hg ltac:(lra) ltac:(lra)).
  assert (B2 := blend_encl (LinearR OriginalColor) (LinearB OriginalColor) 0.4 0.6
                  Hr Hb ltac:(lra) ltac:(lra)).
  assert (B3 := blend_encl (LinearR OriginalColor) (LinearG OriginalColor) 0.3 0.7
                  Hr Hg ltac:(lra) ltac:(lra)).
  destruct (FString_Equals (ColorBlindnessType Settings) "Protanopia");
    [|destruct (FString_Equals (ColorBlindnessType Settings) "Deuteranopia");
      [|destruct (FString_Equals (ColorBlindnessType Settings) "Tritanopia");
        [|by destruct Htype as [?|[?|?]]]]];
    cbn [LinearR LinearG LinearB]; (split; [lra|split; [lra|split; [lra|]]]); auto.
Qed.

(** X20: the fallback branch of [GetColorBlindFriendlyColor] does not
    clamp. With colour-blind mode on and a type that is none of the three
    named ones, a colour with red below 0.5, green above 0.5 and blue in
    [0.75, 1] comes back with a blue channel of at least 1.049, outside
    [0, 1]. *)
Theorem GetColorBlindFriendlyColor_fallback_leaves_gamut
  (Settings : UALEJOAccessibilitySettings) (OriginalColor : FLinearColor) :
  bColorBlindMode Settings = true ->
  FString_Equals (ColorBlindnessType Settings) "Protanopia" = false ->
  FString_Equals (ColorBlindnessType Settings) "Deuteranopia" = false ->
  FString_Equals (ColorBlindnessType Settings) "Tritanopia" = false ->
  LinearR OriginalColor < 0.5 -> 0.5 < LinearG OriginalColor ->
  0.75 <= LinearB OriginalColor <= 1 ->
  1.049 <= LinearB (GetColorBlindFriendlyColor F (Some Settings) OriginalColor).
Proof.
  intros Hmode Hp Hd Ht Hr Hg Hb. unfold GetColorBlindFriendlyColor.
  rewrite Hmode, Hp, Hd, Ht. cbn [negb]. unfold FloatLess.
  destruct (Rlt_dec 0.5 (LinearR OriginalColor)); [lra|].
  destruct (Rlt_dec (LinearR OriginalColor) 0.5); [|lra].
  destruct (Rlt_dec 0.5 (LinearG OriginalColor)); [|lra].
  cbn [andb LinearB].
  assert (H3 : 0.29999 <= flit F 0.3 <= 0.30001) by (apply (flit_encl F HF); lra).
  assert (H := fadd_encl F HF _ _ 0.75 1 0.29999 0.30001 1.049 2 Hb H3). lra.
Qed.
End ColourResults.

Lemma GetAccessibleColorPair_always_readable_witness :
  let Pair := GetAccessibleColorPair ExactArith None false in
  4.5 <= GetContrastRatio ExactArith (fst Pair) (snd Pair).
Proof.
  exact (proj2 (GetAccessibleColorPair_always_readable ExactArith ExactArith_IsFloatArith
                  None false)).
Defined.

Lemma White_IsColor : IsColor White.
Proof. unfold IsColor, White; cbn; lra. Qed.

Lemma Black_IsColor : IsColor Black.
Proof. unfold IsColor, Black; cbn; lra. Qed.

Lemma GetContrastRatio_range_witness :
  1 <= GetContrastRatio ExactArith Black White <= 21.1.
Proof.
  exact (GetContrastRatio_range ExactArith ExactArith_IsFloatArith Black White
           Black_IsColor White_IsColor).
Defined.

Lemma GetColorBlindFriendlyColor_named_types_witness :
  0 <= LinearG (GetColorBlindFriendlyColor ExactArith (Some LargePrintSettings) White)
  <= 1.00001.
Proof.
  exact (proj1 (proj2
    (GetColorBlindFriendlyColor_named_types ExactArith ExactArith_IsFloatArith
       LargePrintSettings White White_IsColor eq_refl (or_intror (or_introl eq_refl))))).
Defined.

Lemma GetColorBlindFriendlyColor_fallback_leaves_gamut_witness :
  1.049 <= LinearB (GetColorBlindFriendlyColor ExactArith (Some ColorBlindSettings)
                      (LinearColor 0 1 1 1)).
Proof.
  apply (GetColorBlindFriendlyColor_fallback_leaves_gamut ExactArith ExactArith_IsFloatArith);
    try reflexivity; cbn [LinearR LinearG LinearB]; lra.
Defined.

(** ** The widget tree *)


Lemma UWidget_induction (P : UWidget -> Prop) :
  (forall Body, P (Widget Body None)) ->
  (forall Body Children,
     Forall (fun Child => forall w, Child = Some w -> P w) Children ->
     P (Widget Body (Some Children))) ->
  forall w, P w.
Proof.
  intros Hleaf Hpanel. fix IH 1. intros [Body [Children|]]; [|apply Hleaf].
  apply Hpanel. induction Children as [|[c|] Children IHc]; constructor; try assumption.
  - intros w [= <-]. apply IH.
  - intros w [=].
Qed.

(** Two passes over a tree whose bodies agree after the passes. *)
Lemma map_children_ext (f g : UWidget -> UWidget) (Children : list (option UWidget)) :
  Forall (fun Child => forall w, Child = Some w -> f w = g w) Children ->
  List.map (option_map f) Children = List.map (option_map g) Children.
Proof.
  induction 1 as [|[c|] Children Hc _ IH]; cbn; [done| |]; rewrite IH; [|done].
  by rewrite (Hc c eq_refl).
Qed.

Section WidgetResults.
Context (F : FloatArith) (RoundToInt : R -> Z).

Lemma ApplyHighContrastBody_twice (b : bool) (Body : WidgetBody) :
  ApplyHighContrastBody F b (ApplyHighContrastBody F b Body) = ApplyHighContrastBody F b Body.
Proof. by destruct b, Body. Qed.

Lemma ApplyHighContrastBody_on_after_off (Body : WidgetBody) :
  ApplyHighContrastBody F true (ApplyHighContrastBody F false Body)
  = ApplyHighContrastBody F true Body.
Proof. by destruct Body. Qed.

Lemma ApplyHighContrastRecursive_twice (b : bool) (w : UWidget) :
  ApplyHighContrastRecursive F b (ApplyHighContrastRecursive F b w)
  = ApplyHighContrastRecursive F b w.
Proof.
  induction w as [Body|Body Children IH] using UWidget_induction;
    cbn [ApplyHighContrastRecursive ApplyFontScalingRecursive option_map].
  - by rewrite ApplyHighContrastBody_twice.
  - rewrite ApplyHighContrastBody_twice, List.map_map. do 2 f_equal.
    rewrite <- (map_children_ext _ _ _ IH). apply List.map_ext. by intros [c|].
Qed.

Lemma ApplyHighContrastRecursive_on_after_off (w : UWidget) :
  ApplyHighContrastRecursive F true (ApplyHighContrastRecursive F false w)
  = ApplyHighContrastRecursive F true w.
Proof.
  induction w as [Body|Body Children IH] using UWidget_induction;
    cbn [ApplyHighContrastRecursive ApplyFontScalingRecursive option_map].
  - by rewrite ApplyHighContrastBody_on_after_off.
  - rewrite ApplyHighContrastBody_on_after_off, List.map_map. do 2 f_equal.
    rewrite <- (map_children_ext _ _ _ IH). apply List.map_ext. by intros [c|].
Qed.

(** X21: [ApplyHighContrastMode] is idempotent, for either value of the
    flag and for a null target or a target without a widget tree as well;
    and switching high contrast on gives the same tree whether or not it
    had been switched off before. *)
Theorem ApplyHighContrastMode_idempotent (TargetWidget : option UUserWidget) (b : bool) :
  ApplyHighContrastMode F (ApplyHighContrastMode F TargetWidget b) b
  = ApplyHighContrastMode F TargetWidget b /\
  ApplyHighContrastMode F (ApplyHighContrastMode F TargetWidget false) true
  = ApplyHighContrastMode F TargetWidget true.
Proof.
  destruct TargetWidget as [[[[Root|]|] Anims]|]; cbn; try done.
  by rewrite ApplyHighContrastRecursive_twice, ApplyHighContrastRecursive_on_after_off.
Qed.

(** X22: switching high contrast off does not restore what switching it
    on changed. On a button whose normal outline colour is not white, on
    then off leaves a tree different from off alone: the off branch
    resets the outline widths and never the outline colours. *)
Theorem ApplyHighContrastRecursive_off_does_not_restore
  (BackgroundColor : FLinearColor) (Padding : FMargin)
  (Normal Hovered Pressed : FOutlineSettings) (Children : option (list (option UWidget))) :
  let w := Widget (Button BackgroundColor Padding Normal Hovered Pressed) Children in
  OutlineColor Normal <> LinearColor 1 1 1 1 ->
  ApplyHighContrastRecursive F false (ApplyHighContrastRecursive F true w)
  <> ApplyHighContrastRecursive F false w.
Proof.
  cbn. intros Hne Heq. injection Heq as H _. by apply Hne.
Qed.

Lemma Bodies_commute (ScaleFactor : R) (b : bool) (Body : WidgetBody) :
  ApplyFontScalingBody F RoundToInt ScaleFactor (ApplyHighContrastBody F b Body)
  = ApplyHighContrastBody F b (ApplyFontScalingBody F RoundToInt ScaleFactor Body).
Proof. by destruct b, Body. Qed.

Lemma Recursive_passes_commute (ScaleFactor : R) (b : bool) (w : UWidget) :
  ApplyFontScalingRecursive F RoundToInt ScaleFactor (ApplyHighContrastRecursive F b w)
  = ApplyHighContrastRecursive F b (ApplyFontScalingRecursive F RoundToInt ScaleFactor w).
Proof.
  induction w as [Body|Body Children IH] using UWidget_induction;
    cbn [ApplyHighContrastRecursive ApplyFontScalingRecursive option_map].
  - by rewrite Bodies_commute.
  - rewrite Bodies_commute, !List.map_map. do 2 f_equal.
    induction IH as [|[c|] Children Hc _ IHc]; cbn; [done| |]; rewrite IHc; [|done].
    by rewrite (Hc c eq_refl).
Qed.

(** X23: [ApplyFontScaling] and [ApplyHighContrastMode] act on
    different properties of every widget of the tree, so they commute:
    either order leaves the same target. *)
Theorem Font_scaling_and_high_contrast_commute
  (AccessibilitySettings : option UALEJOAccessibilitySettings)
  (TargetWidget : option UUserWidget) (b : bool) :
  ApplyFontScaling F RoundToInt AccessibilitySettings (ApplyHighContrastMode F TargetWidget b)
  = ApplyHighContrastMode F (ApplyFontScaling F RoundToInt AccessibilitySettings TargetWidget) b.
Proof.
  destruct TargetWidget as [[[[Root|]|] Anims]|], AccessibilitySettings as [Settings|];
    cbn; try done.
  by rewrite Recursive_passes_commute.
Qed.
End WidgetResults.


Lemma ReduceMotion_rate (a : UWidgetAnimation) :
  let a' := {| PlayRate := if FloatLess 0.5 (PlayRate a) then 0.5 else PlayRate a;
               CurrentTime := 0 |} in
  PlayRate a' <= 0.5 /\ (PlayRate a <= 0.5 -> PlayRate a' = PlayRate a).
Proof.
  cbn. unfold FloatLess. destruct (Rlt_dec 0.5 (PlayRate a)); split; lra.
Qed.

Lemma ReduceMotion_twice (Animation : option UWidgetAnimation) :
  ReduceMotion (ReduceMotion Animation) = ReduceMotion Animation.
Proof.
  destruct Animation as [a|]; [|done]. cbn. unfold FloatLess.
  destruct (Rlt_dec 0.5 (PlayRate a)) as [Hlt|Hge].
  - destruct (Rlt_dec 0.5 0.5); [lra|done].
  - by destruct (Rlt_dec 0.5 (PlayRate a)).
Qed.

(** X24: with reduced motion on, [ApplyReducedMotionSettings] keeps the
    widget tree and works through the animations place by place: a null
    animation stays null, and an animation that is not null stays, is
    rewound to time 0, and has its play rate set to 0.5 when it was above
    0.5 and left as it was otherwise. So the number of animations is
    kept, every animation that is not null afterwards comes from one
    that was not null before and plays at a rate of at most 0.5, and a
    second call changes nothing more. *)
Theorem ApplyReducedMotionSettings_slows_animations
  (Settings : UALEJOAccessibilitySettings) (Target : UUserWidget) :
  bReducedMotion Settings = true ->
  exists Target',
    ApplyReducedMotionSettings (Some Settings) (Some Target) = Some Target' /\
    WidgetTree Target' = WidgetTree Target /\
    length (Animations Target') = length (Animations Target) /\
    (forall i, Animations Target !! i = Some None -> Animations Target' !! i = Some None) /\
    (forall i a, Animations Target !! i = Some (Some a) ->
       exists a', Animations Target' !! i = Some (Some a') /\
         CurrentTime a' = 0 /\
         (0.5 < PlayRate a -> PlayRate a' = 0.5) /\
         (PlayRate a <= 0.5 -> PlayRate a' = PlayRate a)) /\
    (forall i a', Animations Target' !! i = Some (Some a') ->
       exists a, Animations Target !! i = Some (Some a) /\
         PlayRate a' <= 0.5 /\ CurrentTime a' = 0 /\
         (PlayRate a <= 0.5 -> PlayRate a' = PlayRate a)) /\
    ApplyReducedMotionSettings (Some Settings) (Some Target') = Some Target'.
Proof.
  intros Hrm. unfold ApplyReducedMotionSettings. rewrite Hrm.
  eexists. split; [reflexivity|]. cbn [WidgetTree Animations].
  change (List.map ReduceMotion (Animations Target)) with (ReduceMotion <$> Animations Target).
  split; [done|]. split; [by rewrite length_fmap|].
  split; [|split; [|split]].
  - intros i Hi. by rewrite list_lookup_fmap, Hi.
  - intros i a Hi. rewrite list_lookup_fmap, Hi. cbn [fmap option_fmap option_map ReduceMotion].
    eexists. split; [reflexivity|]. cbn [CurrentTime PlayRate]. split; [done|].
    unfold FloatLess. destruct (Rlt_dec 0.5 (PlayRate a)); split; intros; lra || reflexivity.
  - intros i a' Hi. rewrite list_lookup_fmap in Hi.
    destruct (Animations Target !! i) as [[a|]|]; try done.
    injection Hi as <-. exists a. split; [done|].
    destruct (ReduceMotion_rate a) as [H1 H2]. cbn in *. auto.
  - do 2 f_equal. change (ReduceMotion <$> Animations Target)
      with (List.map ReduceMotion (Animations Target)).
    rewrite List.map_map. apply List.map_ext. apply ReduceMotion_twice.
Qed.

Lemma ApplyHighContrastRecursive_off_does_not_restore_witness :
  ApplyHighContrastRecursive ExactArith false
    (ApplyHighContrastRecursive ExactArith true
       (Widget (Button Black (Margin 1 1 1 1) (Outline 1 Black) (Outline 1 Black)
                  (Outline 1 Black)) None))
  <> ApplyHighContrastRecursive ExactArith false
       (Widget (Button Black (Margin 1 1 1 1) (Outline 1 Black) (Outline 1 Black)
                  (Outline 1 Black)) None).
Proof.
  apply ApplyHighContrastRecursive_off_does_not_restore.
  cbn [OutlineColor]. unfold Black. intros Heq. injection Heq as H. lra.
Defined.

Lemma ApplyReducedMotionSettings_slows_animations_witness :
  exists Target',
    ApplyReducedMotionSettings (Some ColorBlindSettings) (Some SampleUserWidget)
    = Some Target' /\
    length (Animations Target') = 3%nat /\
    (exists a', Animations Target' !! 0%nat = Some (Some a') /\
       CurrentTime a' = 0 /\ PlayRate a' = 0.5) /\
    Animations Target' !! 1%nat = Some None /\
    (exists a', Animations Target' !! 2%nat = Some (Some a') /\
       CurrentTime a' = 0 /\ PlayRate a' = / 4).
Proof.
  destruct (ApplyReducedMotionSettings_slows_animations ColorBlindSettings SampleUserWidget
              eq_refl) as (Target' & Happly & _ & Hlen & Hnull & Hkept & _).
  exists Target'. split; [exact Happly|]. split; [exact Hlen|].
  split; [|split].
  - destruct (Hkept 0%nat (Animation 1 2) eq_refl) as (a' & Ha' & Ht & Hfast & _).
    exists a'. split; [exact Ha'|]. split; [exact Ht|].
    apply Hfast. cbn [PlayRate]. lra.
  - exact (Hnull 1%nat eq_refl).
  - destruct (Hkept 2%nat (Animation (/ 4) 0) eq_refl) as (a' & Ha' & Ht & _ & Hslow).
    exists a'. split; [exact Ha'|]. split; [exact Ht|].
    apply Hslow. cbn [PlayRate]. lra.
Defined.

#[local] Close Scope R_scope.

(** ** Announcements and the function library *)


Section AnnounceResults.
Context (F : FloatArith) (E : JsonEngine).



(** X27: a helper initialised with a null settings pointer holds the
    constructor's defaults, and these leave it inert: a later update with
    a null pointer keeps them, text and colours come back unchanged,
    animations are left alone, nothing is announced, and the colour pair
    for plain content is the one a helper without settings gives. *)
Theorem UIHelper_Initialize_null_is_inert
  (OriginalText Message : string) (bInterrupt : bool)
  (OriginalColor : FLinearColor) (TargetWidget : option UUserWidget) (u : UIWorld) :
  let Settings := UIHelper_Initialize F None in
  Settings = Some (DefaultSettings F) /\
  UIHelper_UpdateAccessibilitySettings None Settings = Settings /\
  GetAccessibleText Settings OriginalText = OriginalText /\
  GetColorBlindFriendlyColor F Settings OriginalColor = OriginalColor /\
  ApplyReducedMotionSettings Settings TargetWidget = TargetWidget /\
  AnnounceToScreenReader E Settings Message bInterrupt u = u /\
  GetAccessibleColorPair F Settings false = GetAccessibleColorPair F None false.
Proof.
  cbn. repeat split. by destruct TargetWidget.
Qed.
End AnnounceResults.


